(** * Provider abstraction layer of the multi-provider CLI

    A shallow embedding of
    - [packages/core/src/core/contentGenerator.ts]
      (config resolver and generator factory),
    - [packages/core/src/core/providers/openai-adapter.ts],
    - [packages/core/src/core/providers/anthropic-adapter.ts],
    - [packages/core/src/core/providers/meta-llama-adapter.ts],
    followed by the properties of the specification that are stated about
    them.

    Conventions of the embedding.
    - A JavaScript value that may be [undefined]/[null] is an [option].
    - JavaScript strings are [string]; [s.length] is [String.length s]
      (one character per code unit).
    - [process.env] is a finite map from variable names to strings.
    - A provider stream that is consumed by [for await] is the finite list
      of the events it delivers; the async generator is the list of the
      responses it yields, in the order of the yields.
    - A thrown exception is an explicit error result. *)

From Stdlib Require Import String Ascii List ZArith QArith Qround Lia.
From stdpp Require Import base option list strings gmap.

(* ===================================================================== *)
(** ** JavaScript primitives used by the sources                          *)
(* ===================================================================== *)

Module JS.

(** Truthiness of a string: every string but the empty one. *)
Definition truthy (s : string) : bool := negb (String.eqb s "").

(** Truthiness of [string | undefined]. *)
Definition truthy_opt (x : option string) : bool :=
  match x with
  | Some s => truthy s
  | None => false
  end.

(** [x || d] for [x : string | undefined] and a string [d]. *)
Definition or_else (x : option string) (d : string) : string :=
  match x with
  | Some s => if truthy s then s else d
  | None => d
  end.

(** [x || undefined]. *)
Definition or_undefined (x : option string) : option string :=
  match x with
  | Some s => if truthy s then Some s else None
  | None => None
  end.

(** [a || b] for two optional strings (the result is [b] when [a] is
    falsy, whatever [b] is). *)
Definition or_opt (a b : option string) : option string :=
  if truthy_opt a then a else b.

(** [n || 0] for [n : number | undefined] on non-negative integers. *)
Definition num_or_0 (n : option N) : N :=
  match n with
  | Some k => k
  | None => 0%N
  end.

(** [Array.prototype.join]. *)
Fixpoint join (sep : string) (l : list string) : string :=
  match l with
  | [] => ""
  | [x] => x
  | x :: rest => x +:+ sep +:+ join sep rest
  end.

(** [p] is a prefix of [s]. *)
Fixpoint startsWith (s p : string) : bool :=
  match p, s with
  | EmptyString, _ => true
  | String _ _, EmptyString => false
  | String a p', String b s' => Ascii.eqb a b && startsWith s' p'
  end.

(** [String.prototype.includes]: [t] occurs in [s] (case sensitive). *)
Fixpoint includes (s t : string) : bool :=
  startsWith s t ||
  match s with
  | EmptyString => false
  | String _ s' => includes s' t
  end.

(** A template-literal hole [${x}] for [x : string | undefined]. *)
Definition interp (x : option string) : string :=
  match x with
  | Some s => s
  | None => "undefined"
  end.

End JS.

(* ===================================================================== *)
(** ** The canonical schema ([@google/genai])                             *)
(* ===================================================================== *)

Inductive FinishReason := STOP | MAX_TOKENS | SAFETY | OTHER.

(** [inlineData] of a part. *)
Record Blob := mkBlob {
  mimeType : option string;
  data : option string
}.

(** A part is an object whose fields are all optional; the adapters look at
    [text] and [inlineData] only. *)
Record Part := mkPart {
  text : option string;
  inlineData : option Blob
}.

Record Content := mkContent {
  role : option string;
  parts : option (list Part)
}.

(** An element of the contents array: a bare string or a content object. *)
Inductive ContentUnion :=
| CString (s : string)
| CObject (c : Content).

(** [request.contents]: one element or an array of them. *)
Inductive ContentListUnion :=
| Single (c : ContentUnion)
| Many (l : list ContentUnion).

Record GenerateContentConfig := mkGenConfig {
  systemInstruction : option ContentListUnion
}.

Record GenerateContentParameters := mkRequest {
  req_contents : option ContentListUnion;
  req_config : option GenerateContentConfig
}.

Record CountTokensParameters := mkCountRequest {
  ct_contents : ContentListUnion
}.

Record CountTokensResponse := mkCount {
  totalTokens : Z
}.

Record Candidate := mkCandidate {
  cand_content : Content;
  finishReason : option FinishReason;
  index : nat
}.

Record UsageMetadata := mkUsage {
  promptTokenCount : N;
  candidatesTokenCount : N;
  totalTokenCount : N
}.

Record GenerateContentResponse := mkResponse {
  candidates : list Candidate;
  usageMetadata : option UsageMetadata
}.

(** The content [{ parts: [{ text }], role: 'model' }] every adapter builds. *)
Definition modelContent (t : string) : Content :=
  {| role := Some "model";
     parts := Some [ {| text := Some t; inlineData := None |} ] |}.

(* ===================================================================== *)
(** ** Provider-side message shapes                                       *)
(* ===================================================================== *)

(** Content blocks of an outgoing message: [{type:'text', text}] and
    [{type:'image_url', image_url:{url}}]. *)
Inductive ContentBlock :=
| TextBlock (t : string)
| ImageUrlBlock (url : string).

#[global] Instance ContentBlock_eq_dec : EqDecision ContentBlock.
Proof. solve_decision. Defined.

(** Message content: a bare string or an array of blocks. *)
Inductive MessageContent :=
| Str (s : string)
| Blocks (bs : list ContentBlock).

Record Message := mkMessage {
  msg_role : string;
  msg_content : MessageContent
}.

(** Truthiness of [request.contents]: every object and array is truthy, a
    bare string is truthy unless it is empty. *)
Definition contents_truthy (c : ContentListUnion) : bool :=
  match c with
  | Single (CString s) => JS.truthy s
  | _ => true
  end.

(** The three adapters carry the same private helpers [normalizeContents]
    and [extractTextFromContents], character for character; they are
    embedded once here and named again inside each adapter. *)
Module Shared.

(** [normalizeContents]: an array is returned as it is, anything else is
    wrapped in a one-element array. *)
Definition normalizeContents (contents : ContentListUnion) : list ContentUnion :=
  match contents with
  | Many l => l
  | Single c => [c]
  end.

(** [parts.map(part => part.text || '').join(' ')]. *)
Definition partsText (ps : list Part) : string :=
  JS.join " " (map (fun p => JS.or_else (text p) "") ps).

(** The callback of the outer [map] in [extractTextFromContents]. *)
Definition elementText (c : ContentUnion) : string :=
  match c with
  | CString s => s
  | CObject o =>
      match parts o with
      | Some ps => partsText ps
      | None => ""
      end
  end.

Definition extractTextFromContents (contents : ContentListUnion) : string :=
  match contents with
  | Single (CString s) => s
  | Many l => JS.join " " (map elementText l)
  | Single (CObject o) =>
      match parts o with
      | Some ps => partsText ps
      | None => ""
      end
  end.

End Shared.

(** [content.role === r]. *)
Definition role_is (c : Content) (r : string) : bool :=
  match role c with
  | Some s => String.eqb s r
  | None => false
  end.

(** [content.parts || []]. *)
Definition parts_or_nil (c : Content) : list Part :=
  match parts c with
  | Some ps => ps
  | None => []
  end.

(** [part.text] is truthy. *)
Definition has_text (p : Part) : bool := JS.truthy_opt (text p).

(** The value of a truthy [part.text]. *)
Definition text_of (p : Part) : string := JS.or_else (text p) "".

(** The closing test of both block converters:
    [blocks.length === 1 && blocks[0].type === 'text' ? blocks[0].text : blocks]. *)
Definition collapse (bs : list ContentBlock) : MessageContent :=
  match bs with
  | [TextBlock t] => Str t
  | _ => Blocks bs
  end.

(** The synthesized leading system message of the OpenAI and Meta Llama
    adapters. [typeof si === 'string' ? si : extractTextFromContents(si)]
    is [extractTextFromContents si], which returns a string unchanged. *)
Definition systemMessages (request : GenerateContentParameters) : list Message :=
  match req_config request with
  | Some cfg =>
      match systemInstruction cfg with
      | Some si =>
          if contents_truthy si
          then [ {| msg_role := "system";
                    msg_content := Str (Shared.extractTextFromContents si) |} ]
          else []
      | None => []
      end
  | None => []
  end.

(* ===================================================================== *)
(** ** The rest of a generation request                                   *)
(* ===================================================================== *)

(** The JSON schema of a function's parameters. The adapters pass it on
    untouched; only its identity matters. *)
Definition Schema := string.

Record FunctionDeclaration := mkFunctionDeclaration {
  fd_name : option string;
  fd_description : option string;
  fd_parameters : option Schema
}.

(** A tool, of which the adapters read [functionDeclaration] only. *)
Record Tool := mkTool {
  functionDeclaration : option FunctionDeclaration
}.

(** [request.config.tools]: one tool or an array of them. *)
Inductive ToolListUnion :=
| OneTool (t : Tool)
| ToolArray (l : list Tool).

(** [Array.isArray(tools) ? tools : [tools]]. *)
Definition toolsArray (tools : ToolListUnion) : list Tool :=
  match tools with
  | ToolArray l => l
  | OneTool t => [t]
  end.

(** [request.model] and the fields of [request.config] other than
    [systemInstruction], each [None] when [config] or the field is absent.
    The three numbers are JavaScript numbers, here rationals: they may be
    negative or fractional ([NaN] and the infinities are not values of the
    model). *)
Record GenerationSettings := mkSettings {
  gs_model : option string;
  temperature : option Q;
  topP : option Q;
  maxOutputTokens : option Q;
  stopSequences : option (list string);
  tools : option ToolListUnion
}.

Record EmbedContentParameters := mkEmbedRequest {
  ec_model : option string;
  ec_contents : ContentListUnion
}.

(** [{ embeddings: [{ values }, ...] }]. *)
Record EmbedContentResponse := mkEmbedResponse {
  embeddings : list (list Q)
}.

(** What a call that talks to a provider leaves behind: the requests it
    handed to the SDK client, in order, and its result, where [inl] is the
    message of the [Error] it throws. *)
Definition Outcome (Call Result : Type) : Type :=
  (list Call * (string + Result))%type.

(* ===================================================================== *)
(** ** Shapes of the OpenAI SDK (used by the OpenAI and Meta adapters)    *)
(* ===================================================================== *)

Module OpenAISDK.

Record ChatCompletionMessage := mkChatMessage {
  content : option string
}.

Record Choice := mkChoice {
  message : ChatCompletionMessage;
  finish_reason : option string
}.

(** The adapters read each counter through [response.usage?.x || 0], so
    every level is optional here. *)
Record CompletionUsage := mkCompletionUsage {
  prompt_tokens : option N;
  completion_tokens : option N;
  total_tokens : option N
}.

Record ChatCompletion := mkChatCompletion {
  choices : list Choice;
  usage : option CompletionUsage
}.

Record ChunkDelta := mkChunkDelta {
  delta_content : option string
}.

Record ChunkChoice := mkChunkChoice {
  delta : option ChunkDelta;
  chunk_finish_reason : option string
}.

Record ChatCompletionChunk := mkChunk {
  chunk_choices : list ChunkChoice
}.

(** [chunk.choices[0]?.delta] is truthy. *)
Definition has_delta (chunk : ChatCompletionChunk) : bool :=
  match chunk_choices chunk with
  | c :: _ => match delta c with Some _ => true | None => false end
  | [] => false
  end.


Record ChatCompletionTool := mkChatTool {
  fn_name : option string;
  fn_description : option string;
  fn_parameters : option Schema
}.

(** The argument of [client.chat.completions.create]. *)
Record ChatCompletionCreateParams := mkCreateParams {
  cp_model : string;
  cp_messages : list Message;
  cp_temperature : option Q;
  cp_max_tokens : option Q;
  cp_top_p : option Q;
  cp_stop : option (list string);
  cp_tools : option (list ChatCompletionTool);
  cp_stream : bool
}.

(** The argument of [client.embeddings.create] and, of its response, the
    vectors [response.data[i].embedding]. *)
Record EmbeddingCreateParams := mkEmbeddingParams {
  em_model : string;
  em_input : string
}.

Record CreateEmbeddingResponse := mkEmbeddingResponse {
  em_data : list (list Q)
}.

End OpenAISDK.

(* ===================================================================== *)
(** ** [OpenAIAdapter]                                                    *)
(* ===================================================================== *)

Module OpenAIAdapter.
Import OpenAISDK.

Definition normalizeContents := Shared.normalizeContents.
Definition extractTextFromContents := Shared.extractTextFromContents.

Definition mapFinishReason (reason : option string) : FinishReason :=
  match reason with
  | Some r =>
      if String.eqb r "stop" then STOP
      else if String.eqb r "length" then MAX_TOKENS
      else if String.eqb r "tool_calls" then STOP
      else if String.eqb r "content_filter" then SAFETY
      else OTHER
  | None => OTHER
  end.

Definition countTokens (request : CountTokensParameters) : CountTokensResponse :=
  let text := extractTextFromContents (ct_contents request) in
  let estimatedTokens :=
    Qceiling (inject_Z (Z.of_nat (String.length text)) / (4 # 1)) in
  {| totalTokens := estimatedTokens |}.

(** The data URL of an [inlineData] part. *)
Definition dataUrl (b : Blob) : string :=
  "data:" +:+ JS.interp (mimeType b) +:+ ";base64," +:+ JS.interp (data b).

(** What one iteration of the [for (const part of parts)] loop pushes. *)
Definition pushed (p : Part) : list ContentBlock :=
  if has_text p then [TextBlock (text_of p)]
  else match inlineData p with
       | Some b => [ImageUrlBlock (dataUrl b)]
       | None => []
       end.

Definition convertGeminiPartsToOpenAI (ps : list Part) : MessageContent :=
  match ps with
  | [p] =>
      if has_text p then Str (text_of p)
      else collapse (flat_map pushed ps)
  | _ => collapse (flat_map pushed ps)
  end.

Definition convertGeminiPartsToText (ps : list Part) : string :=
  JS.join " "
    (map (fun p =>
            if has_text p then text_of p
            else match inlineData p with
                 | Some _ => "[Image data]"
                 | None => ""
                 end) ps).

(** The messages pushed for one element of the contents array. *)
Definition contentMessages (c : ContentUnion) : list Message :=
  match c with
  | CString s => [ {| msg_role := "user"; msg_content := Str s |} ]
  | CObject o =>
      if role_is o "user" then
        [ {| msg_role := "user";
             msg_content := convertGeminiPartsToOpenAI (parts_or_nil o) |} ]
      else if role_is o "model" then
        [ {| msg_role := "assistant";
             msg_content := Str (convertGeminiPartsToText (parts_or_nil o)) |} ]
      else []
  end.

Definition convertGeminiToOpenAIMessages
    (request : GenerateContentParameters) : list Message :=
  systemMessages request ++
  match req_contents request with
  | Some cs =>
      if contents_truthy cs
      then flat_map contentMessages (normalizeContents cs)
      else []
  | None => []
  end.

(** [None] stands for the [TypeError] of reading [choice.message] when
    [response.choices] is empty. *)
Definition convertOpenAIToGeminiResponse
    (response : ChatCompletion) : option GenerateContentResponse :=
  match choices response with
  | choice :: _ =>
      let content := JS.or_else (content (message choice)) "" in
      Some {| candidates :=
                [ {| cand_content := modelContent content;
                     finishReason := Some (mapFinishReason (finish_reason choice));
                     index := 0 |} ];
              usageMetadata := Some
                {| promptTokenCount :=
                     JS.num_or_0 (usage response ≫= prompt_tokens);
                   candidatesTokenCount :=
                     JS.num_or_0 (usage response ≫= completion_tokens);
                   totalTokenCount :=
                     JS.num_or_0 (usage response ≫= total_tokens) |} |}
  | [] => None
  end.

(** Called only on chunks that passed [has_delta]; the two impossible
    branches are the [TypeError]s of the source. *)
Definition convertOpenAIStreamChunkToGemini
    (chunk : ChatCompletionChunk) : option GenerateContentResponse :=
  match chunk_choices chunk with
  | choice :: _ =>
      match delta choice with
      | Some d =>
          let content := JS.or_else (delta_content d) "" in
          Some {| candidates :=
                    [ {| cand_content := modelContent content;
                         finishReason :=
                           if JS.truthy_opt (chunk_finish_reason choice)
                           then Some (mapFinishReason (chunk_finish_reason choice))
                           else None;
                         index := 0 |} ];
                  usageMetadata := None |}
      | None => None
      end
  | [] => None
  end.

(** The body of [streamGenerator]: the responses yielded while the
    provider stream [stream] is consumed. *)
Definition generateContentStream
    (stream : list ChatCompletionChunk) : list GenerateContentResponse :=
  flat_map (fun chunk =>
              if has_delta chunk
              then option_list (convertOpenAIStreamChunkToGemini chunk)
              else []) stream.


(** One step of the [map] in [convertGeminiToolsToOpenAI]; [None] is the
    [TypeError] of reading [name] of an absent [functionDeclaration]. *)
Definition toolToOpenAI (tool : Tool) : option ChatCompletionTool :=
  match functionDeclaration tool with
  | Some fd =>
      Some {| fn_name := fd_name fd;
              fn_description := fd_description fd;
              fn_parameters := fd_parameters fd |}
  | None => None
  end.

Definition convertGeminiToolsToOpenAI (tools : ToolListUnion)
    : option (list ChatCompletionTool) :=
  mapM toolToOpenAI (toolsArray tools).

(** The argument [generateContent] builds for the SDK call; [None] when
    building it throws. *)
Definition generateContentParams (request : GenerateContentParameters)
    (settings : GenerationSettings) : option ChatCompletionCreateParams :=
  let messages := convertGeminiToOpenAIMessages request in
  match tools settings with
  | Some ts =>
      match convertGeminiToolsToOpenAI ts with
      | Some converted =>
          Some {| cp_model := JS.or_else (gs_model settings) "gpt-4o";
                  cp_messages := messages;
                  cp_temperature := temperature settings;
                  cp_max_tokens := maxOutputTokens settings;
                  cp_top_p := topP settings;
                  cp_stop := stopSequences settings;
                  cp_tools := Some converted;
                  cp_stream := false |}
      | None => None
      end
  | None =>
      Some {| cp_model := JS.or_else (gs_model settings) "gpt-4o";
              cp_messages := messages;
              cp_temperature := temperature settings;
              cp_max_tokens := maxOutputTokens settings;
              cp_top_p := topP settings;
              cp_stop := stopSequences settings;
              cp_tools := None;
              cp_stream := false |}
  end.

(** The argument [streamGenerator] builds for the SDK call. *)
Definition generateContentStreamParams (request : GenerateContentParameters)
    (settings : GenerationSettings) : option ChatCompletionCreateParams :=
  let messages := convertGeminiToOpenAIMessages request in
  match tools settings with
  | Some ts =>
      match convertGeminiToolsToOpenAI ts with
      | Some converted =>
          Some {| cp_model := JS.or_else (gs_model settings) "gpt-4o";
                  cp_messages := messages;
                  cp_temperature := temperature settings;
                  cp_max_tokens := maxOutputTokens settings;
                  cp_top_p := topP settings;
                  cp_stop := stopSequences settings;
                  cp_tools := Some converted;
                  cp_stream := true |}
      | None => None
      end
  | None =>
      Some {| cp_model := JS.or_else (gs_model settings) "gpt-4o";
              cp_messages := messages;
              cp_temperature := temperature settings;
              cp_max_tokens := maxOutputTokens settings;
              cp_top_p := topP settings;
              cp_stop := stopSequences settings;
              cp_tools := None;
              cp_stream := true |}
  end.

Section Client.

(** [typeErrorText p]: how the engine renders, in a template literal, the
    [TypeError] of reading property [p] of [undefined]. *)
Variable typeErrorText : string → string.

(** The SDK client: the response of a call, or the rendering of what it
    throws. *)
Variable create : ChatCompletionCreateParams → string + ChatCompletion.
Variable createEmbedding : EmbeddingCreateParams → string + CreateEmbeddingResponse.

Definition generateContent (request : GenerateContentParameters)
    (settings : GenerationSettings)
    : Outcome ChatCompletionCreateParams GenerateContentResponse :=
  match generateContentParams request settings with
  | None => ([], inl ("OpenAI API error: " +:+ typeErrorText "name"))
  | Some params =>
      match create params with
      | inl error => ([params], inl ("OpenAI API error: " +:+ error))
      | inr response =>
          match convertOpenAIToGeminiResponse response with
          | Some result => ([params], inr result)
          | None =>
              ([params], inl ("OpenAI API error: " +:+ typeErrorText "message"))
          end
      end
  end.

Definition embedContent (request : EmbedContentParameters)
    : Outcome EmbeddingCreateParams EmbedContentResponse :=
  let text := extractTextFromContents (ec_contents request) in
  let params :=
    {| em_model := JS.or_else (ec_model request) "text-embedding-3-small";
       em_input := text |} in
  match createEmbedding params with
  | inl error => ([params], inl ("OpenAI Embeddings API error: " +:+ error))
  | inr response =>
      match em_data response with
      | first :: _ => ([params], inr {| embeddings := [first] |})
      | [] =>
          ([params],
           inl ("OpenAI Embeddings API error: " +:+ typeErrorText "embedding"))
      end
  end.

End Client.

End OpenAIAdapter.

(* ===================================================================== *)
(** ** Shapes of the Anthropic SDK                                        *)
(* ===================================================================== *)

Module AnthropicSDK.

(** Blocks of a response: text blocks and the others ([tool_use], ...),
    of which only the [type] tag matters to the adapter. *)
Inductive ResponseBlock :=
| TextBlockResp (t : string)
| OtherBlockResp (type : string).

(** [usage] and both of its counters are required fields of a message;
    the adapter reads them unguarded. *)
Record Usage := mkUsage {
  input_tokens : N;
  output_tokens : N
}.

Record AMessage := mkMessage {
  content : list ResponseBlock;
  stop_reason : option string;
  usage : Usage
}.

(** The [delta] of a [content_block_delta] event. *)
Inductive BlockDelta :=
| TextDelta (t : string)
| InputJsonDelta (partial_json : string).

(** Events of a message stream, by their [type] tag. The stop reason of
    a streamed message travels in the [message_delta] event. *)
Inductive RawMessageStreamEvent :=
| MessageStart
| ContentBlockStart
| ContentBlockDelta (d : BlockDelta)
| ContentBlockStop
| MessageDelta (stop_reason : option string)
| MessageStop.

(** [chunk.type === 'content_block_delta' &&
     chunk.delta.type === 'text_delta']. *)
Definition is_text_delta (chunk : RawMessageStreamEvent) : bool :=
  match chunk with
  | ContentBlockDelta (TextDelta _) => true
  | _ => false
  end.

(** [chunk.delta?.text]. *)
Definition delta_text (chunk : RawMessageStreamEvent) : option string :=
  match chunk with
  | ContentBlockDelta (TextDelta t) => Some t
  | _ => None
  end.


(** An entry of the [tools] of a call. *)
Record ToolParam := mkToolParam {
  tool_name : option string;
  tool_description : option string;
  input_schema : option Schema
}.

(** The argument of [client.messages.create]. *)
Record MessageCreateParams := mkCreateParams {
  mp_model : string;
  mp_max_tokens : Q;
  mp_messages : list Message;
  mp_system : option string;
  mp_temperature : option Q;
  mp_top_p : option Q;
  mp_stop_sequences : option (list string);
  mp_tools : option (list ToolParam);
  mp_stream : bool
}.

End AnthropicSDK.

(* ===================================================================== *)
(** ** [AnthropicAdapter]                                                 *)
(* ===================================================================== *)

Module AnthropicAdapter.
Import AnthropicSDK.

Definition normalizeContents := Shared.normalizeContents.
Definition extractTextFromContents := Shared.extractTextFromContents.

Definition mapFinishReason (reason : option string) : FinishReason :=
  match reason with
  | Some r =>
      if String.eqb r "end_turn" then STOP
      else if String.eqb r "max_tokens" then MAX_TOKENS
      else if String.eqb r "stop_sequence" then STOP
      else if String.eqb r "tool_use" then STOP
      else OTHER
  | None => OTHER
  end.

(** [Math.ceil(text.length / 3.5)], on exact rationals. The quotient of
    an integer below 2^50 by 3.5 is either an integer, which the
    floating-point division returns exactly, or at least 1/7 away from
    the nearest integers, more than the rounding error: the
    floating-point ceiling is the exact one. *)
Definition countTokens (request : CountTokensParameters) : CountTokensResponse :=
  let text := extractTextFromContents (ct_contents request) in
  let estimatedTokens :=
    Qceiling (inject_Z (Z.of_nat (String.length text)) / (7 # 2)) in
  {| totalTokens := estimatedTokens |}.

Definition placeholder : string :=
  "[Image content - not supported in this adapter]".

(** What one iteration of the [for (const part of parts)] loop pushes. *)
Definition pushed (p : Part) : list ContentBlock :=
  if has_text p then [TextBlock (text_of p)]
  else match inlineData p with
       | Some _ => [TextBlock placeholder]
       | None => []
       end.

Definition convertGeminiPartsToAnthropic (ps : list Part) : MessageContent :=
  match ps with
  | [p] =>
      if has_text p && negb (bool_decide (is_Some (inlineData p)))
      then Str (text_of p)
      else collapse (flat_map pushed ps)
  | _ => collapse (flat_map pushed ps)
  end.

(** The messages pushed for one element of the contents array. *)
Definition contentMessages (c : ContentUnion) : list Message :=
  match c with
  | CString s => [ {| msg_role := "user"; msg_content := Str s |} ]
  | CObject o =>
      if role_is o "user" then
        [ {| msg_role := "user";
             msg_content := convertGeminiPartsToAnthropic (parts_or_nil o) |} ]
      else if role_is o "model" then
        [ {| msg_role := "assistant";
             msg_content := convertGeminiPartsToAnthropic (parts_or_nil o) |} ]
      else []
  end.

Definition convertGeminiToAnthropicMessages
    (request : GenerateContentParameters) : list Message :=
  match req_contents request with
  | Some cs =>
      if contents_truthy cs
      then flat_map contentMessages (normalizeContents cs)
      else []
  | None => []
  end.

(** [extractSystemPrompt]: a string is passed on as it is, anything else
    goes through [extractTextFromContents([systemInstruction])], where an
    array nested in the one-element array has no [parts]. *)
Definition extractSystemPrompt
    (request : GenerateContentParameters) : option string :=
  match req_config request with
  | Some cfg =>
      match systemInstruction cfg with
      | Some si =>
          if contents_truthy si then
            Some match si with
                 | Single c => Shared.elementText c
                 | Many _ => ""
                 end
          else None
      | None => None
      end
  | None => None
  end.

(** The text of the text blocks, in response order. *)
Definition textContent (blocks : list ResponseBlock) : string :=
  JS.join ""
    (flat_map (fun b => match b with
                        | TextBlockResp t => [t]
                        | OtherBlockResp _ => []
                        end) blocks).

Definition convertAnthropicToGeminiResponse
    (response : AMessage) : option GenerateContentResponse :=
  Some {| candidates :=
            [ {| cand_content := modelContent (textContent (content response));
                 finishReason := Some (mapFinishReason (stop_reason response));
                 index := 0 |} ];
          usageMetadata := Some
            {| promptTokenCount := input_tokens (usage response);
               candidatesTokenCount := output_tokens (usage response);
               totalTokenCount :=
                 (input_tokens (usage response) + output_tokens (usage response))%N |} |}.

(** The candidate built here has no [finishReason] field at all. *)
Definition convertAnthropicStreamChunkToGemini
    (chunk : RawMessageStreamEvent) : GenerateContentResponse :=
  let text := JS.or_else (delta_text chunk) "" in
  {| candidates :=
       [ {| cand_content := modelContent text;
            finishReason := None;
            index := 0 |} ];
     usageMetadata := None |}.

(** The body of [streamGenerator]: the responses yielded while the
    provider stream [stream] is consumed. *)
Definition generateContentStream
    (stream : list RawMessageStreamEvent) : list GenerateContentResponse :=
  flat_map (fun chunk =>
              if is_text_delta chunk
              then [convertAnthropicStreamChunkToGemini chunk]
              else []) stream.


(** One step of the [map] in [convertGeminiToolsToAnthropic]; [None] is
    the [TypeError] of reading [name] of an absent [functionDeclaration]. *)
Definition toolToAnthropic (tool : Tool) : option ToolParam :=
  match functionDeclaration tool with
  | Some fd =>
      Some {| tool_name := fd_name fd;
              tool_description := fd_description fd;
              input_schema := fd_parameters fd |}
  | None => None
  end.

Definition convertGeminiToolsToAnthropic (tools : ToolListUnion)
    : option (list ToolParam) :=
  mapM toolToAnthropic (toolsArray tools).

(** [request.config?.maxOutputTokens || 4096]: a number is falsy when it
    is zero; every other number, negative or fractional, is passed on. *)
Definition maxTokens (settings : GenerationSettings) : Q :=
  match maxOutputTokens settings with
  | Some n => if Qeq_bool n 0 then 4096%Q else n
  | None => 4096%Q
  end.

(** The argument [generateContent] builds for the SDK call; [None] when
    building it throws. *)
Definition generateContentParams (request : GenerateContentParameters)
    (settings : GenerationSettings) : option MessageCreateParams :=
  let messages := convertGeminiToAnthropicMessages request in
  let systemPrompt := extractSystemPrompt request in
  match tools settings with
  | Some ts =>
      match convertGeminiToolsToAnthropic ts with
      | Some converted =>
          Some {| mp_model := JS.or_else (gs_model settings) "claude-3-5-sonnet-20241022";
                  mp_max_tokens := maxTokens settings;
                  mp_messages := messages;
                  mp_system := systemPrompt;
                  mp_temperature := temperature settings;
                  mp_top_p := topP settings;
                  mp_stop_sequences := stopSequences settings;
                  mp_tools := Some converted;
                  mp_stream := false |}
      | None => None
      end
  | None =>
      Some {| mp_model := JS.or_else (gs_model settings) "claude-3-5-sonnet-20241022";
              mp_max_tokens := maxTokens settings;
              mp_messages := messages;
              mp_system := systemPrompt;
              mp_temperature := temperature settings;
              mp_top_p := topP settings;
              mp_stop_sequences := stopSequences settings;
              mp_tools := None;
              mp_stream := false |}
  end.

(** The argument [streamGenerator] builds for the SDK call. *)
Definition generateContentStreamParams (request : GenerateContentParameters)
    (settings : GenerationSettings) : option MessageCreateParams :=
  let messages := convertGeminiToAnthropicMessages request in
  let systemPrompt := extractSystemPrompt request in
  match tools settings with
  | Some ts =>
      match convertGeminiToolsToAnthropic ts with
      | Some converted =>
          Some {| mp_model := JS.or_else (gs_model settings) "claude-3-5-sonnet-20241022";
                  mp_max_tokens := maxTokens settings;
                  mp_messages := messages;
                  mp_system := systemPrompt;
                  mp_temperature := temperature settings;
                  mp_top_p := topP settings;
                  mp_stop_sequences := stopSequences settings;
                  mp_tools := Some converted;
                  mp_stream := true |}
      | None => None
      end
  | None =>
      Some {| mp_model := JS.or_else (gs_model settings) "claude-3-5-sonnet-20241022";
              mp_max_tokens := maxTokens settings;
              mp_messages := messages;
              mp_system := systemPrompt;
              mp_temperature := temperature settings;
              mp_top_p := topP settings;
              mp_stop_sequences := stopSequences settings;
              mp_tools := None;
              mp_stream := true |}
  end.

Section Client.

(** [typeErrorText p]: how the engine renders, in a template literal, the
    [TypeError] of reading property [p] of [undefined]. *)
Variable typeErrorText : string → string.

(** The SDK client: the response of a call, or the rendering of what it
    throws. *)
Variable create : MessageCreateParams → string + AMessage.

Definition generateContent (request : GenerateContentParameters)
    (settings : GenerationSettings)
    : Outcome MessageCreateParams GenerateContentResponse :=
  match generateContentParams request settings with
  | None => ([], inl ("Anthropic API error: " +:+ typeErrorText "name"))
  | Some params =>
      match create params with
      | inl error => ([params], inl ("Anthropic API error: " +:+ error))
      | inr response =>
          match convertAnthropicToGeminiResponse response with
          | Some result => ([params], inr result)
          | None =>
              ([params], inl ("Anthropic API error: " +:+ typeErrorText "filter"))
          end
      end
  end.

End Client.

(** [embedContent] throws at once, whatever the request. *)
Definition embedContent (_request : EmbedContentParameters)
    : Outcome MessageCreateParams EmbedContentResponse :=
  ([], inl "Anthropic does not support embeddings. Please use a different provider for embedding tasks.").

End AnthropicAdapter.

(* ===================================================================== *)
(** ** [MetaLlamaAdapter]                                                 *)
(* ===================================================================== *)

Module MetaLlamaAdapter.
Import OpenAISDK.

Definition normalizeContents := Shared.normalizeContents.
Definition extractTextFromContents := Shared.extractTextFromContents.

Definition mapFinishReason (reason : option string) : FinishReason :=
  match reason with
  | Some r =>
      if String.eqb r "stop" then STOP
      else if String.eqb r "length" then MAX_TOKENS
      else if String.eqb r "content_filter" then SAFETY
      else OTHER
  | None => OTHER
  end.

Definition countTokens (request : CountTokensParameters) : CountTokensResponse :=
  let text := extractTextFromContents (ct_contents request) in
  let estimatedTokens :=
    Qceiling (inject_Z (Z.of_nat (String.length text)) / (4 # 1)) in
  {| totalTokens := estimatedTokens |}.

Definition placeholder : string :=
  "[Image data not supported by this provider]".

Definition convertGeminiPartsToText (ps : list Part) : string :=
  JS.join " "
    (map (fun p =>
            if has_text p then text_of p
            else match inlineData p with
                 | Some _ => placeholder
                 | None => ""
                 end) ps).

(** The messages pushed for one element of the contents array. *)
Definition contentMessages (c : ContentUnion) : list Message :=
  match c with
  | CString s => [ {| msg_role := "user"; msg_content := Str s |} ]
  | CObject o =>
      if role_is o "user" then
        [ {| msg_role := "user";
             msg_content := Str (convertGeminiPartsToText (parts_or_nil o)) |} ]
      else if role_is o "model" then
        [ {| msg_role := "assistant";
             msg_content := Str (convertGeminiPartsToText (parts_or_nil o)) |} ]
      else []
  end.

Definition convertGeminiToOpenAIMessages
    (request : GenerateContentParameters) : list Message :=
  systemMessages request ++
  match req_contents request with
  | Some cs =>
      if contents_truthy cs
      then flat_map contentMessages (normalizeContents cs)
      else []
  | None => []
  end.

(** [None] stands for the [TypeError] of reading [choice.message] when
    [response.choices] is empty. *)
Definition convertOpenAIToGeminiResponse
    (response : ChatCompletion) : option GenerateContentResponse :=
  match choices response with
  | choice :: _ =>
      let content := JS.or_else (content (message choice)) "" in
      Some {| candidates :=
                [ {| cand_content := modelContent content;
                     finishReason := Some (mapFinishReason (finish_reason choice));
                     index := 0 |} ];
              usageMetadata := Some
                {| promptTokenCount :=
                     JS.num_or_0 (usage response ≫= prompt_tokens);
                   candidatesTokenCount :=
                     JS.num_or_0 (usage response ≫= completion_tokens);
                   totalTokenCount :=
                     JS.num_or_0 (usage response ≫= total_tokens) |} |}
  | [] => None
  end.

Definition convertOpenAIStreamChunkToGemini
    (chunk : ChatCompletionChunk) : option GenerateContentResponse :=
  match chunk_choices chunk with
  | choice :: _ =>
      match delta choice with
      | Some d =>
          let content := JS.or_else (delta_content d) "" in
          Some {| candidates :=
                    [ {| cand_content := modelContent content;
                         finishReason :=
                           if JS.truthy_opt (chunk_finish_reason choice)
                           then Some (mapFinishReason (chunk_finish_reason choice))
                           else None;
                         index := 0 |} ];
                  usageMetadata := None |}
      | None => None
      end
  | [] => None
  end.

Definition generateContentStream
    (stream : list ChatCompletionChunk) : list GenerateContentResponse :=
  flat_map (fun chunk =>
              if has_delta chunk
              then option_list (convertOpenAIStreamChunkToGemini chunk)
              else []) stream.


(** The argument [generateContent] builds for the SDK call: no tools. *)
Definition generateContentParams (request : GenerateContentParameters)
    (settings : GenerationSettings) : ChatCompletionCreateParams :=
  let messages := convertGeminiToOpenAIMessages request in
  {| cp_model :=
       JS.or_else (gs_model settings) "meta-llama/Llama-3.1-70B-Instruct-Turbo";
     cp_messages := messages;
     cp_temperature := temperature settings;
     cp_max_tokens := maxOutputTokens settings;
     cp_top_p := topP settings;
     cp_stop := stopSequences settings;
     cp_tools := None;
     cp_stream := false |}.

(** The argument [streamGenerator] builds for the SDK call. *)
Definition generateContentStreamParams (request : GenerateContentParameters)
    (settings : GenerationSettings) : ChatCompletionCreateParams :=
  let messages := convertGeminiToOpenAIMessages request in
  {| cp_model :=
       JS.or_else (gs_model settings) "meta-llama/Llama-3.1-70B-Instruct-Turbo";
     cp_messages := messages;
     cp_temperature := temperature settings;
     cp_max_tokens := maxOutputTokens settings;
     cp_top_p := topP settings;
     cp_stop := stopSequences settings;
     cp_tools := None;
     cp_stream := true |}.

Section Client.

(** [typeErrorText p]: how the engine renders, in a template literal, the
    [TypeError] of reading property [p] of [undefined]. *)
Variable typeErrorText : string → string.

(** The SDK client: the response of a call, or the rendering of what it
    throws. *)
Variable create : ChatCompletionCreateParams → string + ChatCompletion.

Definition generateContent (request : GenerateContentParameters)
    (settings : GenerationSettings)
    : Outcome ChatCompletionCreateParams GenerateContentResponse :=
  let params := generateContentParams request settings in
  match create params with
  | inl error => ([params], inl ("Meta Llama API error: " +:+ error))
  | inr response =>
      match convertOpenAIToGeminiResponse response with
      | Some result => ([params], inr result)
      | None =>
          ([params], inl ("Meta Llama API error: " +:+ typeErrorText "message"))
      end
  end.

End Client.

(** [embedContent] throws at once, whatever the request. *)
Definition embedContent (_request : EmbedContentParameters)
    : Outcome ChatCompletionCreateParams EmbedContentResponse :=
  ([], inl "Meta Llama providers typically do not support embeddings. Please use a different provider for embedding tasks.").

End MetaLlamaAdapter.

(* ===================================================================== *)
(** ** [contentGenerator.ts]: config resolver and generator factory       *)
(* ===================================================================== *)

Inductive AuthType :=
| LOGIN_WITH_GOOGLE
| USE_GEMINI
| USE_VERTEX_AI
| CLOUD_SHELL
| USE_OPENAI
| USE_ANTHROPIC
| USE_META_LLAMA.

#[global] Instance AuthType_eq_dec : EqDecision AuthType.
Proof. solve_decision. Defined.

(** The string value of each member of the enum. *)
Definition AuthType_value (a : AuthType) : string :=
  match a with
  | LOGIN_WITH_GOOGLE => "oauth-personal"
  | USE_GEMINI => "gemini-api-key"
  | USE_VERTEX_AI => "vertex-ai"
  | CLOUD_SHELL => "cloud-shell"
  | USE_OPENAI => "openai-api-key"
  | USE_ANTHROPIC => "anthropic-api-key"
  | USE_META_LLAMA => "meta-llama-api-key"
  end.

Inductive Provider := google | openai | anthropic | meta.

Record ContentGeneratorConfig := mkCGConfig {
  model : string;
  apiKey : option string;
  vertexai : option bool;
  authType : option AuthType;
  proxy : option string;
  provider : option Provider
}.

(** The two accessors of [Config] that the resolver calls. *)
Record Config := mkConfig {
  getModel : option string;
  getProxy : option string
}.

(** [process.env]. *)
Abbreviation Env := (gmap string string).

(** [process.version], [process.platform], [process.arch]. *)
Record Process := mkProcess {
  version : string;
  platform : string;
  arch : string
}.

(** What the resolver leaves behind: the config it returns and, in the
    Gemini-key branch, the arguments of its call to [getEffectiveModel]
    (whose result it drops). *)
Record Resolution := mkResolution {
  resolved : ContentGeneratorConfig;
  getEffectiveModel_call : option (string * string * option string)
}.

(** [authType === a] *)
Definition auth_is (authType : option AuthType) (a : AuthType) : bool :=
  bool_decide (authType = Some a).

Definition present (x : option string) : bool :=
  match x with Some _ => true | None => false end.

Section Resolver.

(** [DEFAULT_GEMINI_MODEL] of [config/models.ts]. *)
Variable DEFAULT_GEMINI_MODEL : string.

Definition createContentGeneratorConfig
    (env : Env) (config : Config) (authType : option AuthType) : Resolution :=
  let geminiApiKey := JS.or_undefined (env !! "GEMINI_API_KEY") in
  let googleApiKey := JS.or_undefined (env !! "GOOGLE_API_KEY") in
  let openaiApiKey := JS.or_undefined (env !! "OPENAI_API_KEY") in
  let anthropicApiKey := JS.or_undefined (env !! "ANTHROPIC_API_KEY") in
  let metaApiKey :=
    JS.or_undefined (JS.or_opt (env !! "META_API_KEY") (env !! "LLAMA_API_KEY")) in
  let googleCloudProject := JS.or_undefined (env !! "GOOGLE_CLOUD_PROJECT") in
  let googleCloudLocation := JS.or_undefined (env !! "GOOGLE_CLOUD_LOCATION") in
  let effectiveModel := JS.or_else (getModel config) DEFAULT_GEMINI_MODEL in
  let contentGeneratorConfig :=
    {| model := effectiveModel; apiKey := None; vertexai := None;
       authType := authType; proxy := getProxy config; provider := None |} in
  if auth_is authType LOGIN_WITH_GOOGLE || auth_is authType CLOUD_SHELL then
    {| resolved :=
         {| model := effectiveModel; apiKey := None; vertexai := None;
            authType := authType; proxy := getProxy config;
            provider := Some google |};
       getEffectiveModel_call := None |}
  else if auth_is authType USE_GEMINI && present geminiApiKey then
    {| resolved :=
         {| model := effectiveModel; apiKey := geminiApiKey;
            vertexai := Some false;
            authType := authType; proxy := getProxy config;
            provider := Some google |};
       getEffectiveModel_call :=
         Some (default "" geminiApiKey, effectiveModel, getProxy config) |}
  else if auth_is authType USE_VERTEX_AI &&
          (present googleApiKey ||
           (present googleCloudProject && present googleCloudLocation)) then
    {| resolved :=
         {| model := effectiveModel; apiKey := googleApiKey;
            vertexai := Some true;
            authType := authType; proxy := getProxy config;
            provider := Some google |};
       getEffectiveModel_call := None |}
  else if auth_is authType USE_OPENAI && present openaiApiKey then
    {| resolved :=
         {| model := if JS.includes effectiveModel "gemini"
                     then "gpt-4o" else effectiveModel;
            apiKey := openaiApiKey; vertexai := None;
            authType := authType; proxy := getProxy config;
            provider := Some openai |};
       getEffectiveModel_call := None |}
  else if auth_is authType USE_ANTHROPIC && present anthropicApiKey then
    {| resolved :=
         {| model := if JS.includes effectiveModel "gemini"
                     then "claude-3-5-sonnet-20241022" else effectiveModel;
            apiKey := anthropicApiKey; vertexai := None;
            authType := authType; proxy := getProxy config;
            provider := Some anthropic |};
       getEffectiveModel_call := None |}
  else if auth_is authType USE_META_LLAMA && present metaApiKey then
    {| resolved :=
         {| model := if JS.includes effectiveModel "gemini"
                     then "llama-3.1-70b-instruct" else effectiveModel;
            apiKey := metaApiKey; vertexai := None;
            authType := authType; proxy := getProxy config;
            provider := Some meta |};
       getEffectiveModel_call := None |}
  else
    {| resolved := contentGeneratorConfig; getEffectiveModel_call := None |}.

End Resolver.

(** A call the factory makes to code outside itself: the Code Assist
    collaborator, the native SDK client, or an adapter constructor. None of
    the three adapter constructors performs I/O (each only builds an SDK
    client object). *)
Inductive ExternalCall :=
| createCodeAssistContentGenerator
    (userAgent : string) (authType : AuthType) (gcConfig : Config)
    (sessionId : option string)
| new_GoogleGenAI (apiKey : option string) (vertexai : option bool)
    (userAgent : string)
| new_OpenAIAdapter (apiKey : string) (baseURL : option string)
| new_AnthropicAdapter (apiKey : string)
| new_MetaLlamaAdapter (apiKey : string) (baseURL : string).

(** How the factory completes: it returns what its last external call
    produced, or it throws an [Error] of its own with a message. *)
Inductive Completion :=
| Returns
| Throws (message : string).

Section Factory.

Variable process : Process.

Definition userAgent (env : Env) : string :=
  let version := JS.or_else (env !! "CLI_VERSION") (version process) in
  "GeminiCLI/" +:+ version +:+ " (" +:+ platform process +:+ "; " +:+
  arch process +:+ ")".

(** The external calls made, in order, and the completion. *)
Definition createContentGenerator
    (env : Env) (config : ContentGeneratorConfig) (gcConfig : Config)
    (sessionId : option string) : list ExternalCall * Completion :=
  let httpOptions := userAgent env in
  match authType config with
  | Some LOGIN_WITH_GOOGLE =>
      ([createCodeAssistContentGenerator httpOptions LOGIN_WITH_GOOGLE
          gcConfig sessionId], Returns)
  | Some CLOUD_SHELL =>
      ([createCodeAssistContentGenerator httpOptions CLOUD_SHELL
          gcConfig sessionId], Returns)
  | Some USE_GEMINI | Some USE_VERTEX_AI =>
      ([new_GoogleGenAI
          (match apiKey config with
           | Some k => if String.eqb k "" then None else Some k
           | None => None
           end)
          (vertexai config) httpOptions], Returns)
  | Some USE_OPENAI =>
      match apiKey config with
      | Some k =>
          if JS.truthy k
          then ([new_OpenAIAdapter k (proxy config)], Returns)
          else ([], Throws "OpenAI API key is required but not provided")
      | None => ([], Throws "OpenAI API key is required but not provided")
      end
  | Some USE_ANTHROPIC =>
      match apiKey config with
      | Some k =>
          if JS.truthy k
          then ([new_AnthropicAdapter k], Returns)
          else ([], Throws "Anthropic API key is required but not provided")
      | None => ([], Throws "Anthropic API key is required but not provided")
      end
  | Some USE_META_LLAMA =>
      match apiKey config with
      | Some k =>
          if JS.truthy k
          then
            let baseURL :=
              JS.or_else (proxy config) "https://api.together.xyz/v1" in
            ([new_MetaLlamaAdapter k baseURL], Returns)
          else ([], Throws "Meta Llama API key is required but not provided")
      | None => ([], Throws "Meta Llama API key is required but not provided")
      end
  | None =>
      ([], Throws ("Error creating contentGenerator: Unsupported authType: "
                   +:+ JS.interp (AuthType_value <$> authType config)))
  end.

End Factory.

(* ===================================================================== *)
(** ** The three adapters behind one interface                            *)
(* ===================================================================== *)

Inductive Adapter := OpenAI | Anthropic | MetaLlama.

Definition mapFinishReason (a : Adapter) : option string -> FinishReason :=
  match a with
  | OpenAI => OpenAIAdapter.mapFinishReason
  | Anthropic => AnthropicAdapter.mapFinishReason
  | MetaLlama => MetaLlamaAdapter.mapFinishReason
  end.

Definition countTokens (a : Adapter) : CountTokensParameters -> CountTokensResponse :=
  match a with
  | OpenAI => OpenAIAdapter.countTokens
  | Anthropic => AnthropicAdapter.countTokens
  | MetaLlama => MetaLlamaAdapter.countTokens
  end.

(** The message list each adapter sends for a request. *)
Definition convertMessages (a : Adapter) : GenerateContentParameters -> list Message :=
  match a with
  | OpenAI => OpenAIAdapter.convertGeminiToOpenAIMessages
  | Anthropic => AnthropicAdapter.convertGeminiToAnthropicMessages
  | MetaLlama => MetaLlamaAdapter.convertGeminiToOpenAIMessages
  end.

(** The messages each adapter pushes for one element of the contents. *)
Definition contentMessages (a : Adapter) : ContentUnion -> list Message :=
  match a with
  | OpenAI => OpenAIAdapter.contentMessages
  | Anthropic => AnthropicAdapter.contentMessages
  | MetaLlama => MetaLlamaAdapter.contentMessages
  end.

(** The messages that precede those of the contents: the synthesized
    system message of the OpenAI and Meta Llama adapters; the Anthropic
    adapter passes the system prompt in a field of its own. *)
Definition leadingMessages (a : Adapter) (request : GenerateContentParameters) : list Message :=
  match a with
  | Anthropic => []
  | _ => systemMessages request
  end.

Definition StreamEvent (a : Adapter) : Type :=
  match a with
  | Anthropic => AnthropicSDK.RawMessageStreamEvent
  | _ => OpenAISDK.ChatCompletionChunk
  end.

Definition generateContentStream (a : Adapter) :
    list (StreamEvent a) -> list GenerateContentResponse :=
  match a with
  | OpenAI => OpenAIAdapter.generateContentStream
  | Anthropic => AnthropicAdapter.generateContentStream
  | MetaLlama => MetaLlamaAdapter.generateContentStream
  end.

Definition ProviderResponse (a : Adapter) : Type :=
  match a with
  | Anthropic => AnthropicSDK.AMessage
  | _ => OpenAISDK.ChatCompletion
  end.

(** Non-streaming response translation. *)
Definition convertResponse (a : Adapter) :
    ProviderResponse a -> option GenerateContentResponse :=
  match a with
  | OpenAI => OpenAIAdapter.convertOpenAIToGeminiResponse
  | Anthropic => AnthropicAdapter.convertAnthropicToGeminiResponse
  | MetaLlama => MetaLlamaAdapter.convertOpenAIToGeminiResponse
  end.

(** The counters a provider response carries, if any. An Anthropic message
    has no total. *)
Definition supplied_prompt (a : Adapter) : ProviderResponse a -> option N :=
  match a with
  | Anthropic => fun r => Some (AnthropicSDK.input_tokens (AnthropicSDK.usage r))
  | _ => fun r => OpenAISDK.usage r ≫= OpenAISDK.prompt_tokens
  end.

Definition supplied_completion (a : Adapter) : ProviderResponse a -> option N :=
  match a with
  | Anthropic => fun r => Some (AnthropicSDK.output_tokens (AnthropicSDK.usage r))
  | _ => fun r => OpenAISDK.usage r ≫= OpenAISDK.completion_tokens
  end.

Definition supplied_total (a : Adapter) : ProviderResponse a -> option N :=
  match a with
  | Anthropic => fun _ => None
  | _ => fun r => OpenAISDK.usage r ≫= OpenAISDK.total_tokens
  end.

(** The response has a first choice to translate. *)
Definition has_choice (a : Adapter) : ProviderResponse a -> bool :=
  match a with
  | Anthropic => fun _ => true
  | _ => fun r => match OpenAISDK.choices r with [] => false | _ :: _ => true end
  end.

(** The documented characters-per-token constant of each adapter. *)
Definition charsPerToken (a : Adapter) : Q :=
  match a with
  | Anthropic => 7 # 2
  | _ => 4 # 1
  end.

(** The provider role a canonical role is sent under. *)
Definition providerRole (r : string) : string :=
  if String.eqb r "model" then "assistant" else r.

(* ===================================================================== *)
(** ** Vocabulary of the specification                                    *)
(* ===================================================================== *)

(** The provider signals of the documented finish-reason table. *)
Inductive Signal :=
| NaturalEndOfTurn
| StopSequenceHit
| MaxLengthCutoff
| ContentSafetyFilter
| ToolInvocation.

(** The documented table, from the specification. *)
Definition documented (s : Signal) : FinishReason :=
  match s with
  | NaturalEndOfTurn => STOP
  | StopSequenceHit => STOP
  | MaxLengthCutoff => MAX_TOKENS
  | ContentSafetyFilter => SAFETY
  | ToolInvocation => STOP
  end.

(** The keys of each adapter's lookup table (the [case] labels of its
    [switch]), with the signal each provider string stands for in that
    provider's API. OpenAI-style APIs report a natural end and a stop
    sequence under the same string. *)
Definition lookupTable (a : Adapter) : list (string * Signal) :=
  match a with
  | OpenAI =>
      [ ("stop", NaturalEndOfTurn); ("stop", StopSequenceHit);
        ("length", MaxLengthCutoff); ("tool_calls", ToolInvocation);
        ("content_filter", ContentSafetyFilter) ]
  | Anthropic =>
      [ ("end_turn", NaturalEndOfTurn); ("max_tokens", MaxLengthCutoff);
        ("stop_sequence", StopSequenceHit); ("tool_use", ToolInvocation) ]
  | MetaLlama =>
      [ ("stop", NaturalEndOfTurn); ("stop", StopSequenceHit);
        ("length", MaxLengthCutoff);
        ("content_filter", ContentSafetyFilter) ]
  end.

(** The secondary-provider auth modes, their credential and their
    hardcoded default model. *)
Definition secondary (m : AuthType) : bool :=
  match m with
  | USE_OPENAI | USE_ANTHROPIC | USE_META_LLAMA => true
  | _ => false
  end.

Definition credential (env : Env) (m : AuthType) : option string :=
  match m with
  | USE_GEMINI => JS.or_undefined (env !! "GEMINI_API_KEY")
  | USE_VERTEX_AI => JS.or_undefined (env !! "GOOGLE_API_KEY")
  | USE_OPENAI => JS.or_undefined (env !! "OPENAI_API_KEY")
  | USE_ANTHROPIC => JS.or_undefined (env !! "ANTHROPIC_API_KEY")
  | USE_META_LLAMA =>
      JS.or_undefined (JS.or_opt (env !! "META_API_KEY") (env !! "LLAMA_API_KEY"))
  | _ => None
  end.

Definition defaultModel (m : AuthType) : string :=
  match m with
  | USE_OPENAI => "gpt-4o"
  | USE_ANTHROPIC => "claude-3-5-sonnet-20241022"
  | USE_META_LLAMA => "llama-3.1-70b-instruct"
  | _ => ""
  end.

(** The environment variables that belong to the provider a mode implies. *)
Definition credentialVars (m : option AuthType) : list string :=
  match m with
  | Some USE_GEMINI => ["GEMINI_API_KEY"]
  | Some USE_VERTEX_AI =>
      ["GOOGLE_API_KEY"; "GOOGLE_CLOUD_PROJECT"; "GOOGLE_CLOUD_LOCATION"]
  | Some USE_OPENAI => ["OPENAI_API_KEY"]
  | Some USE_ANTHROPIC => ["ANTHROPIC_API_KEY"]
  | Some USE_META_LLAMA => ["META_API_KEY"; "LLAMA_API_KEY"]
  | Some LOGIN_WITH_GOOGLE | Some CLOUD_SHELL | None => []
  end.

(** The name under which each missing-credential error names the
    credential. *)
Definition credentialName (m : AuthType) : string :=
  match m with
  | USE_OPENAI => "OpenAI API key"
  | USE_ANTHROPIC => "Anthropic API key"
  | USE_META_LLAMA => "Meta Llama API key"
  | _ => ""
  end.

(** A partial response of a stream: one candidate with the text delta. *)
Definition partial (t : string) (fr : option FinishReason) : GenerateContentResponse :=
  {| candidates :=
       [ {| cand_content := modelContent t; finishReason := fr; index := 0 |} ];
     usageMetadata := None |}.

(** One partial response per text, none but the last with a finish
    reason, the last with [lastReason]. *)
Fixpoint partials (texts : list string) (lastReason : option FinishReason)
    : list GenerateContentResponse :=
  match texts with
  | [] => []
  | [t] => [partial t lastReason]
  | t :: rest => partial t None :: partials rest lastReason
  end.

(** A synthetic provider stream of incremental text events that ends with
    the provider finish reason [reason]. An OpenAI-style chunk carries the
    finish reason on its last text chunk; an Anthropic stream frames the
    text deltas with its start and stop events and carries the stop reason
    in the [message_delta] event after them. *)
Fixpoint textChunks (texts : list string) (reason : string)
    : list OpenAISDK.ChatCompletionChunk :=
  match texts with
  | [] => []
  | [t] =>
      [ OpenAISDK.mkChunk
          [ OpenAISDK.mkChunkChoice (Some (OpenAISDK.mkChunkDelta (Some t)))
              (Some reason) ] ]
  | t :: rest =>
      OpenAISDK.mkChunk
        [ OpenAISDK.mkChunkChoice (Some (OpenAISDK.mkChunkDelta (Some t))) None ]
      :: textChunks rest reason
  end.

Definition syntheticStream (a : Adapter) (texts : list string) (reason : string)
    : list (StreamEvent a) :=
  match a with
  | Anthropic =>
      [AnthropicSDK.MessageStart; AnthropicSDK.ContentBlockStart] ++
      map (fun t => AnthropicSDK.ContentBlockDelta (AnthropicSDK.TextDelta t)) texts ++
      [AnthropicSDK.ContentBlockStop;
       AnthropicSDK.MessageDelta (Some reason);
       AnthropicSDK.MessageStop]
  | OpenAI => textChunks texts reason
  | MetaLlama => textChunks texts reason
  end.

(** A text part and a content with exactly one text part. *)
Definition textPart (t : string) : Part :=
  {| text := Some t; inlineData := None |}.

(** The adapter and role whose message content goes through a block
    converter ([convertGeminiPartsToOpenAI], [convertGeminiPartsToAnthropic]);
    the others go through [convertGeminiPartsToText]. *)
Definition sentAsBlocks (a : Adapter) (r : string) : bool :=
  match a with
  | Anthropic => true
  | OpenAI => String.eqb r "user"
  | MetaLlama => false
  end.


(** The text delta and the finish reason of a stream event. An OpenAI-style
    chunk is a text-delta event when the delta of its first choice has a
    content; an Anthropic event when it is a [content_block_delta] with a
    [text_delta]. *)
Definition chunkText (chunk : OpenAISDK.ChatCompletionChunk) : option string :=
  match OpenAISDK.chunk_choices chunk with
  | c :: _ =>
      match OpenAISDK.delta c with
      | Some d => OpenAISDK.delta_content d
      | None => None
      end
  | [] => None
  end.

Definition chunkReason (chunk : OpenAISDK.ChatCompletionChunk) : option string :=
  match OpenAISDK.chunk_choices chunk with
  | c :: _ => OpenAISDK.chunk_finish_reason c
  | [] => None
  end.

Definition eventText (a : Adapter) : StreamEvent a → option string :=
  match a with
  | Anthropic => AnthropicSDK.delta_text
  | _ => chunkText
  end.

Definition isTextEvent (a : Adapter) (e : StreamEvent a) : bool :=
  match eventText a e with
  | Some _ => true
  | None => false
  end.

(** The events an adapter's loop hands to its converter. *)
Definition passedOn (a : Adapter) : StreamEvent a → bool :=
  match a with
  | Anthropic => AnthropicSDK.is_text_delta
  | _ => OpenAISDK.has_delta
  end.

(** The finish reason of the partial response for an event: the mapped
    finish reason of an OpenAI-style chunk that has a non-empty one, and
    never any for Anthropic. *)
Definition eventReason (a : Adapter) : StreamEvent a → option FinishReason :=
  match a with
  | Anthropic => fun _ => None
  | OpenAI => fun c =>
      if JS.truthy_opt (chunkReason c)
      then Some (mapFinishReason OpenAI (chunkReason c)) else None
  | MetaLlama => fun c =>
      if JS.truthy_opt (chunkReason c)
      then Some (mapFinishReason MetaLlama (chunkReason c)) else None
  end.

(** The partial response expected for a text-delta event. *)
Definition eventPartial (a : Adapter) (e : StreamEvent a) : GenerateContentResponse :=
  partial (default "" (eventText a e)) (eventReason a e).

(** An OpenAI-style text chunk, and the closing chunk of a stream: an empty
    delta with the finish reason. *)
Definition textChunk (t : string) : OpenAISDK.ChatCompletionChunk :=
  OpenAISDK.mkChunk
    [ OpenAISDK.mkChunkChoice (Some (OpenAISDK.mkChunkDelta (Some t))) None ].

Definition closingChunk (reason : string) : OpenAISDK.ChatCompletionChunk :=
  OpenAISDK.mkChunk
    [ OpenAISDK.mkChunkChoice (Some (OpenAISDK.mkChunkDelta None)) (Some reason) ].

(* ===================================================================== *)
(** ** Vocabulary of the further properties                               *)
(* ===================================================================== *)

(** The provider each auth mode belongs to. *)
Definition providerOf (m : AuthType) : Provider :=
  match m with
  | USE_OPENAI => openai
  | USE_ANTHROPIC => anthropic
  | USE_META_LLAMA => meta
  | _ => google
  end.

(** What a mode needs of the environment: nothing for the managed Google
    modes, the Gemini key, a Google key or project and location for
    Vertex, the provider's key for a secondary mode. No mode at all never
    has what it needs. *)
Definition requirementMet (env : Env) (mode : option AuthType) : bool :=
  match mode with
  | Some LOGIN_WITH_GOOGLE | Some CLOUD_SHELL => true
  | Some USE_VERTEX_AI =>
      present (JS.or_undefined (env !! "GOOGLE_API_KEY")) ||
      (present (JS.or_undefined (env !! "GOOGLE_CLOUD_PROJECT")) &&
       present (JS.or_undefined (env !! "GOOGLE_CLOUD_LOCATION")))
  | Some m => present (credential env m)
  | None => false
  end.

(** The config the resolver starts from. *)
Definition baseConfig (D : string) (config : Config) (mode : option AuthType)
    : ContentGeneratorConfig :=
  {| model := JS.or_else (getModel config) D; apiKey := None; vertexai := None;
     authType := mode; proxy := getProxy config; provider := None |}.

(** The adapter constructor call of a secondary mode. *)
Definition adapterCall (m : AuthType) (key : string) (proxy : option string)
    : list ExternalCall :=
  match m with
  | USE_OPENAI => [new_OpenAIAdapter key proxy]
  | USE_ANTHROPIC => [new_AnthropicAdapter key]
  | USE_META_LLAMA =>
      [new_MetaLlamaAdapter key (JS.or_else proxy "https://api.together.xyz/v1")]
  | _ => []
  end.

(** What a constructor call of the factory never receives: an empty API
    key, or an empty base URL for Meta Llama. *)
Definition wellFormedCall (c : ExternalCall) : Prop :=
  match c with
  | createCodeAssistContentGenerator _ _ _ _ => True
  | new_GoogleGenAI k _ _ => k ≠ Some ""
  | new_OpenAIAdapter k _ => k ≠ ""
  | new_AnthropicAdapter k => k ≠ ""
  | new_MetaLlamaAdapter k url => k ≠ "" ∧ url ≠ ""
  end.

(** The elements of the contents the adapters send a message for. *)
Definition translatable (c : ContentUnion) : bool :=
  match c with
  | CString _ => true
  | CObject o => role_is o "user" || role_is o "model"
  end.

(** Contents without their roles and inline data. *)
Definition erasePart (p : Part) : Part :=
  {| text := text p; inlineData := None |}.

Definition eraseContent (c : ContentUnion) : ContentUnion :=
  match c with
  | CString s => CString s
  | CObject o =>
      CObject {| role := None;
                 parts := match parts o with
                          | Some ps => Some (map erasePart ps)
                          | None => None
                          end |}
  end.

Definition eraseMedia (cs : ContentListUnion) : ContentListUnion :=
  match cs with
  | Single c => Single (eraseContent c)
  | Many l => Many (map eraseContent l)
  end.

(** The total length of a list of strings. *)
Definition totalLength (l : list string) : nat :=
  foldr (fun s n => String.length s + n) 0 l.

(** The text and the finish reason a provider response carries: of the
    first choice, or of the message. *)
Definition suppliedReason (a : Adapter) : ProviderResponse a → option string :=
  match a with
  | Anthropic => AnthropicSDK.stop_reason
  | _ => fun r => match OpenAISDK.choices r with
                  | c :: _ => OpenAISDK.finish_reason c
                  | [] => None
                  end
  end.


(** The prefix of each adapter's wrapped errors. *)
Definition errorPrefix (a : Adapter) : string :=
  match a with
  | OpenAI => "OpenAI API error: "
  | Anthropic => "Anthropic API error: "
  | MetaLlama => "Meta Llama API error: "
  end.

(** The provider role the adapters send a translatable element under. *)
Definition sentRole (c : ContentUnion) : string :=
  match c with
  | CString _ => "user"
  | CObject o => if role_is o "user" then "user" else "assistant"
  end.

(** A call argument with the [stream] flag set. *)
Definition openaiStreaming (p : OpenAISDK.ChatCompletionCreateParams)
    : OpenAISDK.ChatCompletionCreateParams :=
  {| OpenAISDK.cp_model := OpenAISDK.cp_model p;
     OpenAISDK.cp_messages := OpenAISDK.cp_messages p;
     OpenAISDK.cp_temperature := OpenAISDK.cp_temperature p;
     OpenAISDK.cp_max_tokens := OpenAISDK.cp_max_tokens p;
     OpenAISDK.cp_top_p := OpenAISDK.cp_top_p p;
     OpenAISDK.cp_stop := OpenAISDK.cp_stop p;
     OpenAISDK.cp_tools := OpenAISDK.cp_tools p;
     OpenAISDK.cp_stream := true |}.

Definition anthropicStreaming (p : AnthropicSDK.MessageCreateParams)
    : AnthropicSDK.MessageCreateParams :=
  {| AnthropicSDK.mp_model := AnthropicSDK.mp_model p;
     AnthropicSDK.mp_max_tokens := AnthropicSDK.mp_max_tokens p;
     AnthropicSDK.mp_messages := AnthropicSDK.mp_messages p;
     AnthropicSDK.mp_system := AnthropicSDK.mp_system p;
     AnthropicSDK.mp_temperature := AnthropicSDK.mp_temperature p;
     AnthropicSDK.mp_top_p := AnthropicSDK.mp_top_p p;
     AnthropicSDK.mp_stop_sequences := AnthropicSDK.mp_stop_sequences p;
     AnthropicSDK.mp_tools := AnthropicSDK.mp_tools p;
     AnthropicSDK.mp_stream := true |}.

(** A text block that is not empty, or any other block. *)
Definition nonEmptyBlock (b : ContentBlock) : Prop :=
  match b with
  | TextBlock t => t ≠ ""
  | ImageUrlBlock _ => True
  end.

#[global] Instance Signal_eq_dec : EqDecision Signal.
Proof. solve_decision. Defined.

(* ===================================================================== *)
(** ** Strings: prefixes, occurrences and joins                           *)
(* ===================================================================== *)

Lemma append_nil_l (t : string) : "" +:+ t = t.
Proof. reflexivity. Qed.

Lemma append_cons (c : ascii) (s t : string) :
  String c s +:+ t = String c (s +:+ t).
Proof. reflexivity. Qed.

Lemma append_empty_r (s : string) : s +:+ "" = s.
Proof.
  induction s as [|c s IH]; [done |]. by rewrite append_cons, IH.
Qed.

Lemma append_assoc (s t u : string) : (s +:+ t) +:+ u = s +:+ t +:+ u.
Proof.
  induction s as [|c s IH]; [done |]. by rewrite !append_cons, IH.
Qed.

Lemma startsWith_spec (s p : string) :
  JS.startsWith s p = true ↔ ∃ post, s = p +:+ post.
Proof.
  revert s. induction p as [|a p IH]; intros s.
  - destruct s; simpl; split; eauto.
  - destruct s as [|b s]; simpl.
    + split; [done | intros [post H]; discriminate].
    + rewrite andb_true_iff, Ascii.eqb_eq, IH. split.
      * intros [-> [post ->]]. by exists post.
      * intros [post H]. rewrite append_cons in H.
        injection H as -> ->. eauto.
Qed.

Lemma includes_unfold (s t : string) :
  JS.includes s t =
  JS.startsWith s t ||
  match s with
  | EmptyString => false
  | String _ s' => JS.includes s' t
  end.
Proof. by destruct s. Qed.

(** [includes] decides the occurrence of [t] as a substring of [s]. *)
Lemma includes_spec (s t : string) :
  JS.includes s t = true ↔ ∃ pre post, s = pre +:+ t +:+ post.
Proof.
  split.
  - induction s as [|c s IH]; rewrite includes_unfold, orb_true_iff.
    + intros [H | H]; [| done].
      apply startsWith_spec in H as [post H]. by exists "", post.
    + intros [H | H].
      * apply startsWith_spec in H as [post H]. by exists "", post.
      * destruct (IH H) as (pre & post & ->). by exists (String c pre), post.
  - intros (pre & post & ->).
    induction pre as [|c pre IH]; rewrite includes_unfold, orb_true_iff.
    + left. apply startsWith_spec. eauto.
    + right. by rewrite append_cons.
Qed.

Lemma includes_false (s t : string) :
  JS.includes s t = false ↔ ¬ ∃ pre post, s = pre +:+ t +:+ post.
Proof.
  rewrite <- includes_spec. by destruct (JS.includes s t).
Qed.

Lemma includes_refl (s : string) : JS.includes s s = true.
Proof.
  apply includes_spec. exists "", "". by rewrite append_nil_l, append_empty_r.
Qed.

(** Every element of a joined list occurs in the join. *)
Lemma includes_join (sep x : string) (l : list string) :
  x ∈ l → JS.includes (JS.join sep l) x = true.
Proof.
  intros Hx. apply includes_spec.
  induction l as [|y l IH]; [by apply elem_of_nil in Hx |].
  apply elem_of_cons in Hx as [<- | Hx].
  - destruct l as [|z l].
    + exists "", "". by rewrite append_nil_l, append_empty_r.
    + by exists "", (sep +:+ JS.join sep (z :: l)).
  - destruct (IH Hx) as (pre & post & E).
    destruct l as [|z l]; [by apply elem_of_nil in Hx |].
    exists (y +:+ sep +:+ pre), post.
    change (JS.join sep (y :: z :: l)) with (y +:+ sep +:+ JS.join sep (z :: l)).
    rewrite E. by rewrite !append_assoc.
Qed.

Lemma truthy_nonempty (s : string) : JS.truthy s = true ↔ s ≠ "".
Proof.
  unfold JS.truthy. destruct (String.eqb_spec s ""); simpl; split; try done.
Qed.

(** [t || ''] is [t]. *)
Lemma or_empty (t : string) : (if JS.truthy t then t else "") = t.
Proof. unfold JS.truthy. by destruct (String.eqb_spec t "") as [-> |]. Qed.

(* ===================================================================== *)
(** ** Finish reasons                                                     *)
(* ===================================================================== *)

Ltac in_table H :=
  simpl in H; rewrite ?elem_of_cons, ?elem_of_nil in H.

(** C2. For each of the three adapters, every entry of the adapter's
    lookup table is mapped as the documented table says for the signal it
    stands for (natural end of turn, stop sequence and tool invocation to
    STOP, max-length cutoff to MAX_TOKENS, content safety filter to SAFETY),
    and every provider string that is not a key of the adapter's table, as
    well as null, is mapped to OTHER. *)
Theorem mapFinishReason_follows_table (a : Adapter) :
  (∀ r s, (r, s) ∈ lookupTable a → mapFinishReason a (Some r) = documented s) ∧
  (∀ r, r ∉ (lookupTable a).*1 → mapFinishReason a (Some r) = OTHER) ∧
  mapFinishReason a None = OTHER.
Proof.
  split; [| split].
  - intros r s H. destruct a; in_table H;
      repeat (destruct H as [H | H]; [by simplify_eq |]); done.
  - intros r H. destruct a; in_table H; simpl;
      unfold OpenAIAdapter.mapFinishReason, AnthropicAdapter.mapFinishReason,
        MetaLlamaAdapter.mapFinishReason;
      repeat match goal with
             | |- context [String.eqb r ?k] =>
                 destruct (String.eqb_spec r k) as [-> | _];
                 [exfalso; apply H; tauto |]
             end; reflexivity.
  - by destruct a.
Qed.

Lemma mapFinishReason_follows_table_witness :
  mapFinishReason OpenAI (Some "tool_calls") = documented ToolInvocation ∧
  mapFinishReason Anthropic (Some "max_tokens") = documented MaxLengthCutoff ∧
  mapFinishReason MetaLlama (Some "tool_calls") = OTHER.
Proof.
  split; [| split].
  - apply (proj1 (mapFinishReason_follows_table OpenAI)).
    apply (bool_decide_unpack _). vm_compute. reflexivity.
  - apply (proj1 (mapFinishReason_follows_table Anthropic)).
    apply (bool_decide_unpack _). vm_compute. reflexivity.
  - apply (proj1 (proj2 (mapFinishReason_follows_table MetaLlama))).
    apply (bool_decide_unpack _). vm_compute. reflexivity.
Defined.

(* ===================================================================== *)
(** ** Config resolution                                                  *)
(* ===================================================================== *)

(** Settles the tests [authType === X] of the resolver for a known mode. *)
Ltac settle_modes :=
  unfold auth_is;
  repeat (case_bool_decide; try congruence);
  cbn [andb orb].

(** In a secondary-provider mode whose credential is present, the resolved
    model is the provider default when the current model mentions
    ["gemini"], and the current model otherwise. *)
Lemma resolved_model_secondary (D : string) (env : Env) (config : Config)
    (m : AuthType) :
  secondary m = true →
  present (credential env m) = true →
  model (resolved (createContentGeneratorConfig D env config (Some m))) =
  if JS.includes (JS.or_else (getModel config) D) "gemini"
  then defaultModel m
  else JS.or_else (getModel config) D.
Proof.
  intros Hs Hc. destruct m; try discriminate Hs;
    unfold createContentGeneratorConfig; simpl in Hc; settle_modes;
    rewrite Hc; reflexivity.
Qed.

(** C3. When the requested auth mode is a secondary provider and its
    credential is present, the configured model is overwritten with that
    provider's hardcoded default exactly when the currently selected model
    contains the substring ["gemini"]; a model without it is left
    unchanged. *)
Theorem default_model_iff_gemini (D : string) (env : Env) (config : Config)
    (m : AuthType) :
  secondary m = true →
  present (credential env m) = true →
  let current := JS.or_else (getModel config) D in
  let r := resolved (createContentGeneratorConfig D env config (Some m)) in
  ((∃ pre post, current = pre +:+ "gemini" +:+ post) → model r = defaultModel m) ∧
  (¬ (∃ pre post, current = pre +:+ "gemini" +:+ post) → model r = current).
Proof.
  intros Hs Hc current r.
  pose proof (resolved_model_secondary D env config m Hs Hc) as E.
  fold current in E. fold r in E. split; intros H.
  - apply includes_spec in H. by rewrite H in E.
  - apply includes_false in H. by rewrite H in E.
Qed.

Lemma default_model_iff_gemini_witness :
  model (resolved (createContentGeneratorConfig "gemini-2.5-pro"
           {[ "ANTHROPIC_API_KEY" := "test-key" ]}
           {| getModel := Some "gemini-2.5-pro"; getProxy := None |}
           (Some USE_ANTHROPIC))) = "claude-3-5-sonnet-20241022" ∧
  model (resolved (createContentGeneratorConfig "gemini-2.5-pro"
           {[ "OPENAI_API_KEY" := "test-key" ]}
           {| getModel := Some "gpt-4o-mini"; getProxy := None |}
           (Some USE_OPENAI))) = "gpt-4o-mini".
Proof.
  split.
  - apply (default_model_iff_gemini "gemini-2.5-pro"
             {[ "ANTHROPIC_API_KEY" := "test-key" ]}
             {| getModel := Some "gemini-2.5-pro"; getProxy := None |}
             USE_ANTHROPIC); [reflexivity | reflexivity |].
    by exists "", "-2.5-pro".
  - apply (default_model_iff_gemini "gemini-2.5-pro"
             {[ "OPENAI_API_KEY" := "test-key" ]}
             {| getModel := Some "gpt-4o-mini"; getProxy := None |}
             USE_OPENAI); [reflexivity | reflexivity |].
    apply includes_false. reflexivity.
Defined.

(** C9. For every requested auth mode, two environments that agree on the
    credential variables of the provider the mode implies give the same
    resolution (the returned config and the effective-model check alike),
    whatever the other providers' variables hold. *)
Theorem resolution_ignores_unrelated_credentials (D : string) (config : Config)
    (mode : option AuthType) (env1 env2 : Env) :
  (∀ v, v ∈ credentialVars mode → env1 !! v = env2 !! v) →
  createContentGeneratorConfig D env1 config mode =
  createContentGeneratorConfig D env2 config mode.
Proof.
  intros H. unfold createContentGeneratorConfig.
  destruct mode as [[] |]; simpl in H; settle_modes; try reflexivity.
  - rewrite (H "GEMINI_API_KEY") by set_solver. reflexivity.
  - rewrite (H "GOOGLE_API_KEY"), (H "GOOGLE_CLOUD_PROJECT"),
      (H "GOOGLE_CLOUD_LOCATION") by set_solver. reflexivity.
  - rewrite (H "OPENAI_API_KEY") by set_solver. reflexivity.
  - rewrite (H "ANTHROPIC_API_KEY") by set_solver. reflexivity.
  - rewrite (H "META_API_KEY"), (H "LLAMA_API_KEY") by set_solver. reflexivity.
Qed.

Lemma resolution_ignores_unrelated_credentials_witness :
  createContentGeneratorConfig "gemini-2.5-pro"
    {[ "OPENAI_API_KEY" := "k1" ]}
    {| getModel := Some "gemini-2.5-pro"; getProxy := None |} (Some USE_OPENAI) =
  createContentGeneratorConfig "gemini-2.5-pro"
    (<[ "ANTHROPIC_API_KEY" := "k2" ]> (<[ "GEMINI_API_KEY" := "k3" ]>
       {[ "OPENAI_API_KEY" := "k1" ]}))
    {| getModel := Some "gemini-2.5-pro"; getProxy := None |} (Some USE_OPENAI).
Proof.
  apply resolution_ignores_unrelated_credentials.
  intros v Hv. apply list_elem_of_singleton in Hv as ->. reflexivity.
Defined.

(* ===================================================================== *)
(** ** Generator factory                                                  *)
(* ===================================================================== *)

Lemma credentialName_named (m : AuthType) (rest : string) :
  JS.includes (credentialName m +:+ rest) (credentialName m) = true.
Proof. apply includes_spec. by exists "", rest. Qed.

(** C6. For a secondary-provider auth mode whose config carries no apiKey
    (absent or empty), the factory throws an error whose message names the
    missing provider credential, having made no external call at all; and
    whenever the factory throws, it has made no external call and the error
    is one of its own validation errors: a missing credential or an
    unsupported auth type. *)
Theorem factory_fails_locally (process : Process) (env : Env)
    (config : ContentGeneratorConfig) (gcConfig : Config)
    (sessionId : option string) :
  (∀ m, secondary m = true →
        authType config = Some m →
        JS.truthy_opt (apiKey config) = false →
        createContentGenerator process env config gcConfig sessionId =
          ([], Throws (credentialName m +:+ " is required but not provided")) ∧
        JS.includes (credentialName m +:+ " is required but not provided")
          (credentialName m) = true) ∧
  (∀ calls msg,
        createContentGenerator process env config gcConfig sessionId =
          (calls, Throws msg) →
        calls = [] ∧
        ((∃ m, secondary m = true ∧ authType config = Some m ∧
               JS.truthy_opt (apiKey config) = false ∧
               msg = credentialName m +:+ " is required but not provided") ∨
         (authType config = None ∧
          msg = "Error creating contentGenerator: Unsupported authType: undefined"))).
Proof.
  split.
  - intros m Hs Hm Hk. split; [| apply credentialName_named].
    unfold createContentGenerator. rewrite Hm.
    destruct m; try discriminate Hs;
      destruct (apiKey config) as [k |]; simpl in Hk; try rewrite Hk;
      reflexivity.
  - intros calls msg. unfold createContentGenerator.
    destruct (authType config) as [m |] eqn:Hm.
    + destruct m; try discriminate;
        (destruct (apiKey config) as [k |] eqn:Hk;
         [destruct (JS.truthy k) eqn:Ht; [discriminate |] |]).
      all: intros [= <- <-]; split; [reflexivity |]; left.
      all: match goal with
           | |- ∃ m, _ ∧ Some ?a = Some m ∧ _ => exists a
           end.
      all: split_and!; done.
    + intros [= <- <-]. split; [reflexivity |]. by right.
Qed.

Lemma factory_fails_locally_witness :
  createContentGenerator
    {| version := "v20.0.0"; platform := "linux"; arch := "x64" |}
    ∅
    {| model := "gpt-4o"; apiKey := None; vertexai := None;
       authType := Some USE_OPENAI; proxy := None; provider := None |}
    {| getModel := Some "gpt-4o"; getProxy := None |} None =
  ([], Throws "OpenAI API key is required but not provided").
Proof.
  apply (proj1 (factory_fails_locally
                  {| version := "v20.0.0"; platform := "linux"; arch := "x64" |}
                  ∅
                  {| model := "gpt-4o"; apiKey := None; vertexai := None;
                     authType := Some USE_OPENAI; proxy := None;
                     provider := None |}
                  {| getModel := Some "gpt-4o"; getProxy := None |} None)
               USE_OPENAI); reflexivity.
Defined.

(* ===================================================================== *)
(** ** Token estimates                                                    *)
(* ===================================================================== *)

Lemma ceiling_div_3_5 (L : Z) :
  Qceiling (inject_Z L / (7 # 2)) = ((2 * L + 6) / 7)%Z.
Proof.
  unfold Qceiling, Qfloor, Qdiv, Qmult, Qinv, Qopp, inject_Z. simpl.
  Z.div_mod_to_equations. lia.
Qed.

Lemma ceiling_div_4 (L : Z) :
  Qceiling (inject_Z L / (4 # 1)) = ((L + 3) / 4)%Z.
Proof.
  unfold Qceiling, Qfloor, Qdiv, Qmult, Qinv, Qopp, inject_Z. simpl.
  Z.div_mod_to_equations. lia.
Qed.

(** C5. For every adapter [countTokens] is a total function of the
    request: on extracted text of length L it returns the ceiling of L
    divided by the adapter's characters-per-token constant (3.5 for
    Anthropic, 4 for OpenAI and Meta Llama), in integers (2L+6) div 7 and
    (L+3) div 4, and on empty extracted text it returns 0. *)
Theorem countTokens_ceiling (a : Adapter) (request : CountTokensParameters) :
  let text := Shared.extractTextFromContents (ct_contents request) in
  let L := Z.of_nat (String.length text) in
  countTokens a request =
    {| totalTokens := Qceiling (inject_Z L / charsPerToken a) |} ∧
  totalTokens (countTokens a request) =
    match a with
    | Anthropic => ((2 * L + 6) / 7)%Z
    | _ => ((L + 3) / 4)%Z
    end ∧
  (text = "" → countTokens a request = {| totalTokens := 0 |}).
Proof.
  intros text L.
  assert (countTokens a request =
          {| totalTokens := Qceiling (inject_Z L / charsPerToken a) |}) as E
    by (by destruct a).
  split; [exact E |]. split.
  - rewrite E. destruct a; simpl;
      [apply ceiling_div_4 | apply ceiling_div_3_5 | apply ceiling_div_4].
  - intros Ht. rewrite E. subst L. rewrite Ht. by destruct a.
Qed.

Lemma countTokens_ceiling_witness :
  countTokens Anthropic {| ct_contents := Single (CString "") |} =
    {| totalTokens := 0 |} ∧
  totalTokens (countTokens Anthropic
                 {| ct_contents := Single (CString "hello world") |}) = 4%Z.
Proof.
  split.
  - apply (proj2 (proj2 (countTokens_ceiling Anthropic
                           {| ct_contents := Single (CString "") |}))).
    reflexivity.
  - apply (proj1 (proj2 (countTokens_ceiling Anthropic
                           {| ct_contents := Single (CString "hello world") |}))).
Defined.

(* ===================================================================== *)
(** ** Usage counters of a translated response                            *)
(* ===================================================================== *)

(** C7 as stated fails: for an OpenAI-style response whose usage object
    carries the prompt and completion counts and no total, the translated
    total is 0, not their sum 12. *)
Lemma total_not_summed_counterexample :
  supplied_total OpenAI
    {| OpenAISDK.choices :=
         [ {| OpenAISDK.message := {| OpenAISDK.content := Some "hi" |};
              OpenAISDK.finish_reason := Some "stop" |} ];
       OpenAISDK.usage :=
         Some {| OpenAISDK.prompt_tokens := Some 5%N;
                 OpenAISDK.completion_tokens := Some 7%N;
                 OpenAISDK.total_tokens := None |} |} = None ∧
  usageMetadata <$>
    convertResponse OpenAI
      {| OpenAISDK.choices :=
           [ {| OpenAISDK.message := {| OpenAISDK.content := Some "hi" |};
                OpenAISDK.finish_reason := Some "stop" |} ];
         OpenAISDK.usage :=
           Some {| OpenAISDK.prompt_tokens := Some 5%N;
                   OpenAISDK.completion_tokens := Some 7%N;
                   OpenAISDK.total_tokens := None |} |} =
  Some (Some {| promptTokenCount := 5; candidatesTokenCount := 7;
                totalTokenCount := 0 |}) ∧
  (0 ≠ 5 + 7)%N.
Proof. split; [reflexivity | split; [reflexivity | done]]. Qed.

(** C7, amended. Every response with a first choice is translated, and
    its usage metadata holds: the prompt and completion counters the
    provider supplied, 0 for one it did not; as total, for Anthropic (whose
    messages carry none) the sum of the two, and for OpenAI and Meta Llama
    the total the provider supplied, 0 when it supplied none. *)
Theorem usage_counters (a : Adapter) (resp : ProviderResponse a) :
  has_choice a resp = true →
  ∃ out, convertResponse a resp = Some out ∧
    usageMetadata out = Some
      {| promptTokenCount := JS.num_or_0 (supplied_prompt a resp);
         candidatesTokenCount := JS.num_or_0 (supplied_completion a resp);
         totalTokenCount :=
           match a with
           | Anthropic =>
               (JS.num_or_0 (supplied_prompt a resp) +
                JS.num_or_0 (supplied_completion a resp))%N
           | _ => JS.num_or_0 (supplied_total a resp)
           end |}.
Proof.
  intros H. destruct a; simpl in *.
  - unfold OpenAIAdapter.convertOpenAIToGeminiResponse.
    destruct (OpenAISDK.choices resp); [discriminate | eauto].
  - unfold AnthropicAdapter.convertAnthropicToGeminiResponse. eauto.
  - unfold MetaLlamaAdapter.convertOpenAIToGeminiResponse.
    destruct (OpenAISDK.choices resp); [discriminate | eauto].
Qed.

Lemma usage_counters_witness :
  ∃ out,
    convertResponse Anthropic
      {| AnthropicSDK.content := [AnthropicSDK.TextBlockResp "hi"];
         AnthropicSDK.stop_reason := Some "end_turn";
         AnthropicSDK.usage :=
           {| AnthropicSDK.input_tokens := 5; AnthropicSDK.output_tokens := 7 |} |}
    = Some out ∧
    usageMetadata out = Some
      {| promptTokenCount := 5; candidatesTokenCount := 7;
         totalTokenCount := 12 |}.
Proof.
  apply (usage_counters Anthropic
           {| AnthropicSDK.content := [AnthropicSDK.TextBlockResp "hi"];
              AnthropicSDK.stop_reason := Some "end_turn";
              AnthropicSDK.usage :=
                {| AnthropicSDK.input_tokens := 5;
                   AnthropicSDK.output_tokens := 7 |} |}).
  reflexivity.
Defined.

(* ===================================================================== *)
(** ** Streaming                                                          *)
(* ===================================================================== *)

Lemma partials_none (texts : list string) :
  partials texts None = map (fun t => partial t None) texts.
Proof.
  induction texts as [|t [|u rest] IH]; [done | done |].
  change (partials (t :: u :: rest) None)
    with (partial t None :: partials (u :: rest) None).
  by rewrite IH.
Qed.

Lemma length_partials (texts : list string) (fr : option FinishReason) :
  length (partials texts fr) = length texts.
Proof.
  induction texts as [|t [|u rest] IH]; [done | done |].
  change (partials (t :: u :: rest) fr)
    with (partial t None :: partials (u :: rest) fr).
  cbn [length]. f_equal. exact IH.
Qed.

(** The OpenAI adapter on a stream of text chunks. *)
Lemma openai_stream_partials (texts : list string) (reason : string) :
  reason ≠ "" →
  OpenAIAdapter.generateContentStream (textChunks texts reason) =
  partials texts (Some (OpenAIAdapter.mapFinishReason (Some reason))).
Proof.
  intros Hr. apply truthy_nonempty in Hr.
  induction texts as [|t [|u rest] IH]; [done | |].
  - cbn. unfold JS.truthy_opt. by rewrite Hr, or_empty.
  - change (textChunks (t :: u :: rest) reason)
      with (OpenAISDK.mkChunk
              [ OpenAISDK.mkChunkChoice (Some (OpenAISDK.mkChunkDelta (Some t))) None ]
            :: textChunks (u :: rest) reason).
    change (OpenAIAdapter.generateContentStream (?c :: ?l))
      with ((if OpenAISDK.has_delta c
             then option_list (OpenAIAdapter.convertOpenAIStreamChunkToGemini c)
             else []) ++ OpenAIAdapter.generateContentStream l).
    rewrite IH. cbn. by rewrite or_empty.
Qed.

(** The Meta Llama adapter on a stream of text chunks. *)
Lemma meta_stream_partials (texts : list string) (reason : string) :
  reason ≠ "" →
  MetaLlamaAdapter.generateContentStream (textChunks texts reason) =
  partials texts (Some (MetaLlamaAdapter.mapFinishReason (Some reason))).
Proof.
  intros Hr. apply truthy_nonempty in Hr.
  induction texts as [|t [|u rest] IH]; [done | |].
  - cbn. unfold JS.truthy_opt. by rewrite Hr, or_empty.
  - change (textChunks (t :: u :: rest) reason)
      with (OpenAISDK.mkChunk
              [ OpenAISDK.mkChunkChoice (Some (OpenAISDK.mkChunkDelta (Some t))) None ]
            :: textChunks (u :: rest) reason).
    change (MetaLlamaAdapter.generateContentStream (?c :: ?l))
      with ((if OpenAISDK.has_delta c
             then option_list (MetaLlamaAdapter.convertOpenAIStreamChunkToGemini c)
             else []) ++ MetaLlamaAdapter.generateContentStream l).
    rewrite IH. cbn. by rewrite or_empty.
Qed.

(** The Anthropic adapter yields one response per text delta of the
    stream, whatever else the stream holds, and none of them has a finish
    reason. *)
Lemma anthropic_stream_partials (before after : list AnthropicSDK.RawMessageStreamEvent)
    (texts : list string) :
  Forall (fun e => AnthropicSDK.is_text_delta e = false) before →
  Forall (fun e => AnthropicSDK.is_text_delta e = false) after →
  AnthropicAdapter.generateContentStream
    (before ++
     map (fun t => AnthropicSDK.ContentBlockDelta (AnthropicSDK.TextDelta t)) texts ++
     after) =
  map (fun t => partial t None) texts.
Proof.
  intros Hb Ha. unfold AnthropicAdapter.generateContentStream.
  rewrite !flat_map_app.
  assert (∀ l, Forall (fun e => AnthropicSDK.is_text_delta e = false) l →
               flat_map (fun chunk =>
                 if AnthropicSDK.is_text_delta chunk
                 then [AnthropicAdapter.convertAnthropicStreamChunkToGemini chunk]
                 else []) l = []) as Hdrop.
  { induction 1 as [|e l He _ IH]; [done |]. simpl. by rewrite He, IH. }
  rewrite (Hdrop _ Hb), (Hdrop _ Ha), app_nil_r. simpl.
  induction texts as [|t rest IH]; [done |]. simpl. rewrite IH. f_equal.
  unfold AnthropicAdapter.convertAnthropicStreamChunkToGemini, partial. simpl.
  by rewrite or_empty.
Qed.

(** Whatever the provider stream holds, no response the Anthropic adapter
    yields has a finish reason. *)
Lemma anthropic_stream_no_finish_reason
    (stream : list AnthropicSDK.RawMessageStreamEvent)
    (r : GenerateContentResponse) (c : Candidate) :
  r ∈ AnthropicAdapter.generateContentStream stream →
  c ∈ candidates r →
  finishReason c = None.
Proof.
  unfold AnthropicAdapter.generateContentStream.
  rewrite list_elem_of_In, in_flat_map. intros (e & _ & Hr) Hc.
  destruct (AnthropicSDK.is_text_delta e); [| by destruct Hr].
  destruct Hr as [<- | []]. simpl in Hc.
  by apply list_elem_of_singleton in Hc as ->.
Qed.

(** An OpenAI-style adapter yields one response per chunk whose first
    choice has a delta. *)
Lemma openai_stream_events (stream : list OpenAISDK.ChatCompletionChunk) :
  OpenAIAdapter.generateContentStream stream =
  map (eventPartial OpenAI) (List.filter OpenAISDK.has_delta stream).
Proof.
  induction stream as [|e rest IH]; [done |].
  change (OpenAIAdapter.generateContentStream (e :: rest))
    with ((if OpenAISDK.has_delta e
           then option_list (OpenAIAdapter.convertOpenAIStreamChunkToGemini e)
           else []) ++ OpenAIAdapter.generateContentStream rest).
  rewrite IH. cbn [List.filter].
  destruct e as [[| [[[[t |]] |] fr] cs]]; try reflexivity.
  unfold OpenAISDK.has_delta, eventPartial. cbn. by rewrite or_empty.
Qed.

Lemma meta_stream_events (stream : list OpenAISDK.ChatCompletionChunk) :
  MetaLlamaAdapter.generateContentStream stream =
  map (eventPartial MetaLlama) (List.filter OpenAISDK.has_delta stream).
Proof.
  induction stream as [|e rest IH]; [done |].
  change (MetaLlamaAdapter.generateContentStream (e :: rest))
    with ((if OpenAISDK.has_delta e
           then option_list (MetaLlamaAdapter.convertOpenAIStreamChunkToGemini e)
           else []) ++ MetaLlamaAdapter.generateContentStream rest).
  rewrite IH. cbn [List.filter].
  destruct e as [[| [[[[t |]] |] fr] cs]]; try reflexivity.
  unfold OpenAISDK.has_delta, eventPartial. cbn. by rewrite or_empty.
Qed.

Lemma anthropic_stream_events (stream : list AnthropicSDK.RawMessageStreamEvent) :
  AnthropicAdapter.generateContentStream stream =
  map (eventPartial Anthropic) (List.filter AnthropicSDK.is_text_delta stream).
Proof.
  induction stream as [|e rest IH]; [done |].
  change (AnthropicAdapter.generateContentStream (e :: rest))
    with ((if AnthropicSDK.is_text_delta e
           then [AnthropicAdapter.convertAnthropicStreamChunkToGemini e]
           else []) ++ AnthropicAdapter.generateContentStream rest).
  rewrite IH. cbn [List.filter].
  destruct e as [| | [t | j] | | |]; try reflexivity.
  unfold eventPartial, AnthropicAdapter.convertAnthropicStreamChunkToGemini. cbn.
  by rewrite or_empty.
Qed.

Lemma stream_events (a : Adapter) (stream : list (StreamEvent a)) :
  generateContentStream a stream =
  map (eventPartial a) (List.filter (passedOn a) stream).
Proof.
  destruct a;
    [apply openai_stream_events | apply anthropic_stream_events
     | apply meta_stream_events].
Qed.

(** A text-delta event is always passed on. *)
Lemma isTextEvent_passedOn (a : Adapter) (e : StreamEvent a) :
  isTextEvent a e = true → passedOn a e = true.
Proof.
  destruct a; simpl in *.
  - by destruct e as [[| [[[[t |]] |] fr] cs]].
  - by destruct e as [| | [t | j] | | |].
  - by destruct e as [[| [[[[t |]] |] fr] cs]].
Qed.

Lemma filter_text_events (a : Adapter) (stream : list (StreamEvent a)) :
  Forall (fun e => passedOn a e = true → isTextEvent a e = true) stream →
  List.filter (passedOn a) stream = List.filter (isTextEvent a) stream.
Proof.
  induction 1 as [|e rest He _ IH]; [done |].
  cbn [List.filter]. rewrite IH.
  pose proof (isTextEvent_passedOn a e) as Hb.
  destruct (passedOn a e), (isTextEvent a e); try reflexivity.
  - by specialize (He eq_refl).
  - by specialize (Hb eq_refl).
Qed.

(** C1 as stated fails, twice. On the synthetic Anthropic stream of the two
    deltas ["Hel"] and ["lo"] that stops with [end_turn], the terminal
    partial response has no finish reason, where the mapped one is STOP.
    And the OpenAI adapter, on the two text chunks ["Hel"] and ["lo"]
    followed by the closing chunk [{delta: {}, finish_reason: 'stop'}],
    yields three partial responses for the two text deltas, the last one
    with the empty text. *)
Lemma stream_partials_counterexample :
  (generateContentStream Anthropic
     (syntheticStream Anthropic ["Hel"; "lo"] "end_turn") =
     [partial "Hel" None; partial "lo" None] ∧
   generateContentStream Anthropic
     (syntheticStream Anthropic ["Hel"; "lo"] "end_turn") ≠
     partials ["Hel"; "lo"] (Some (mapFinishReason Anthropic (Some "end_turn")))) ∧
  (List.filter (isTextEvent OpenAI)
     [textChunk "Hel"; textChunk "lo"; closingChunk "stop"] =
     [textChunk "Hel"; textChunk "lo"] ∧
   generateContentStream OpenAI
     [textChunk "Hel"; textChunk "lo"; closingChunk "stop"] =
     [partial "Hel" None; partial "lo" None; partial "" (Some STOP)] ∧
   length (generateContentStream OpenAI
             [textChunk "Hel"; textChunk "lo"; closingChunk "stop"]) ≠ 2).
Proof.
  split; [split; [reflexivity | discriminate] |].
  split; [reflexivity |]. split; [reflexivity | discriminate].
Qed.

(** C1, amended. For every adapter and every provider stream,
    [generateContentStream] yields one partial response per event the
    adapter passes on, in stream order: every chunk whose first choice has
    a delta for the OpenAI and Meta Llama adapters, every text delta for
    the Anthropic adapter. Each response carries that event's text delta
    only (the empty text for a delta without content); a response of the
    OpenAI or Meta Llama adapter has the mapped finish reason exactly when
    its chunk has a non-empty one, a response of the Anthropic adapter
    never has one. Hence a stream in which every passed-on event is a
    text-delta event, N in all, yields exactly N partial responses, one
    per text delta; this is so for every Anthropic stream and for the
    synthetic streams, where the OpenAI and Meta Llama terminal response
    has the mapped finish reason of the last text chunk. *)
Theorem stream_partials (a : Adapter) :
  (∀ stream : list (StreamEvent a),
     generateContentStream a stream =
       map (eventPartial a) (List.filter (passedOn a) stream)) ∧
  (∀ stream : list (StreamEvent a),
     Forall (fun e => passedOn a e = true → isTextEvent a e = true) stream →
     generateContentStream a stream =
       map (eventPartial a) (List.filter (isTextEvent a) stream) ∧
     length (generateContentStream a stream) =
       length (List.filter (isTextEvent a) stream)) ∧
  (a = Anthropic →
   (∀ e, passedOn a e = isTextEvent a e) ∧
   (∀ stream r c, r ∈ generateContentStream a stream → c ∈ candidates r →
                  finishReason c = None)) ∧
  (∀ (texts : list string) (reason : string),
     reason ≠ "" →
     generateContentStream a (syntheticStream a texts reason) =
       partials texts
         match a with
         | Anthropic => None
         | _ => Some (mapFinishReason a (Some reason))
         end ∧
     length (generateContentStream a (syntheticStream a texts reason)) =
       length texts).
Proof.
  split_and!.
  - apply stream_events.
  - intros stream H.
    assert (generateContentStream a stream =
            map (eventPartial a) (List.filter (isTextEvent a) stream)) as E
      by (by rewrite stream_events, filter_text_events).
    split; [exact E |]. rewrite E. apply length_map.
  - intros ->. split.
    + intros e. by destruct e as [| | [t | j] | | |].
    + apply anthropic_stream_no_finish_reason.
  - intros texts reason Hr.
    assert (generateContentStream a (syntheticStream a texts reason) =
            partials texts
              match a with
              | Anthropic => None
              | _ => Some (mapFinishReason a (Some reason))
              end) as E.
    { destruct a.
      - by apply openai_stream_partials.
      - rewrite partials_none.
        apply (anthropic_stream_partials
                 [AnthropicSDK.MessageStart; AnthropicSDK.ContentBlockStart]
                 [AnthropicSDK.ContentBlockStop;
                  AnthropicSDK.MessageDelta (Some reason);
                  AnthropicSDK.MessageStop]); repeat constructor.
      - by apply meta_stream_partials. }
    split; [exact E |]. rewrite E. apply length_partials.
Qed.

Lemma stream_partials_witness :
  generateContentStream OpenAI
    [textChunk "Hel"; OpenAISDK.mkChunk []; textChunk "lo"] =
    [partial "Hel" None; partial "lo" None] ∧
  length (generateContentStream OpenAI
            [textChunk "Hel"; OpenAISDK.mkChunk []; textChunk "lo"]) = 2%nat.
Proof.
  apply (proj1 (proj2 (stream_partials OpenAI))
           [textChunk "Hel"; OpenAISDK.mkChunk []; textChunk "lo"]).
  repeat constructor; discriminate.
Defined.

(* ===================================================================== *)
(** ** Request translation                                                *)
(* ===================================================================== *)

Lemma has_text_textPart (t : string) : t ≠ "" → has_text (textPart t) = true.
Proof. intros H. by apply truthy_nonempty. Qed.

Lemma text_of_textPart (t : string) : text_of (textPart t) = t.
Proof. unfold text_of, textPart. simpl. apply or_empty. Qed.

(** Every adapter sends its leading messages and then, element by
    element, the messages of the normalized contents. *)
Lemma convertMessages_unfold (a : Adapter) (request : GenerateContentParameters) :
  convertMessages a request =
  leadingMessages a request ++
  match req_contents request with
  | Some cs =>
      if contents_truthy cs
      then flat_map (contentMessages a) (Shared.normalizeContents cs)
      else []
  | None => []
  end.
Proof. by destruct a. Qed.

Lemma leadingMessages_config (a : Adapter) (c1 c2 : option ContentListUnion)
    (cfg : option GenerateContentConfig) :
  leadingMessages a {| req_contents := c1; req_config := cfg |} =
  leadingMessages a {| req_contents := c2; req_config := cfg |}.
Proof. by destruct a. Qed.

(** Contents that normalize to a list with an object in it are truthy. *)
Lemma contents_truthy_object (cs : ContentListUnion) (o : Content) :
  CObject o ∈ Shared.normalizeContents cs → contents_truthy cs = true.
Proof.
  destruct cs as [[s | o'] | l]; simpl; try done.
  intros H. apply list_elem_of_singleton in H. discriminate.
Qed.

(** C4 as stated fails: for a single text part whose text is empty the
    Anthropic adapter sends an empty block array, not the bare (empty)
    string. *)
Lemma empty_text_part_counterexample :
  convertMessages Anthropic
    {| req_contents :=
         Some (Many [CObject {| role := Some "user";
                                parts := Some [textPart ""] |}]);
       req_config := None |} =
    [ {| msg_role := "user"; msg_content := Blocks [] |} ] ∧
  Blocks [] ≠ Str "".
Proof. split; [reflexivity | discriminate]. Qed.

(** C4, amended. For every adapter and every request whose contents are
    exactly one Content (of role user or model) with exactly one text
    Part, the message translated for it (after the synthesized system
    message, where the adapter sends one) carries that text as a bare
    string, with one exception: where the text is empty and the content
    goes through a block converter (Anthropic, and OpenAI for a user
    message), the message carries the empty block array. The Meta Llama
    adapter, and the OpenAI adapter for a model message, send the bare
    string also when it is empty. *)
Theorem single_text_part_bare_string (a : Adapter)
    (request : GenerateContentParameters) (cs : ContentListUnion)
    (r t : string) :
  req_contents request = Some cs →
  Shared.normalizeContents cs =
    [CObject {| role := Some r; parts := Some [textPart t] |}] →
  r = "user" ∨ r = "model" →
  convertMessages a request =
    leadingMessages a request ++
    [ {| msg_role := providerRole r;
         msg_content :=
           if String.eqb t "" && sentAsBlocks a r then Blocks [] else Str t |} ].
Proof.
  intros Hc Hn Hr.
  assert (contents_truthy cs = true) as Htr.
  { apply (contents_truthy_object cs {| role := Some r; parts := Some [textPart t] |}).
    rewrite Hn. apply list_elem_of_singleton. reflexivity. }
  destruct (String.eqb_spec t "") as [-> | Ht].
  - destruct a; simpl;
      unfold OpenAIAdapter.convertGeminiToOpenAIMessages,
        AnthropicAdapter.convertGeminiToAnthropicMessages,
        MetaLlamaAdapter.convertGeminiToOpenAIMessages,
        OpenAIAdapter.normalizeContents, AnthropicAdapter.normalizeContents,
        MetaLlamaAdapter.normalizeContents;
      rewrite Hc, Htr, Hn; f_equal;
      destruct Hr as [-> | ->]; reflexivity.
  - assert (JS.truthy t = true) as Hh by (by apply truthy_nonempty).
    cbn [andb].
    destruct a; simpl;
      unfold OpenAIAdapter.convertGeminiToOpenAIMessages,
        AnthropicAdapter.convertGeminiToAnthropicMessages,
        MetaLlamaAdapter.convertGeminiToOpenAIMessages,
        OpenAIAdapter.normalizeContents, AnthropicAdapter.normalizeContents,
        MetaLlamaAdapter.normalizeContents;
      rewrite Hc, Htr, Hn; f_equal;
      destruct Hr as [-> | ->]; cbn;
      rewrite ?Hh, ?or_empty; reflexivity.
Qed.

Lemma single_text_part_bare_string_witness :
  convertMessages OpenAI
    {| req_contents :=
         Some (Single (CObject {| role := Some "model";
                                  parts := Some [textPart ""] |}));
       req_config := Some {| systemInstruction := Some (Single (CString "be brief")) |} |} =
    [ {| msg_role := "system"; msg_content := Str "be brief" |};
      {| msg_role := "assistant"; msg_content := Str "" |} ].
Proof.
  apply (single_text_part_bare_string OpenAI
           {| req_contents :=
                Some (Single (CObject {| role := Some "model";
                                         parts := Some [textPart ""] |}));
              req_config :=
                Some {| systemInstruction := Some (Single (CString "be brief")) |} |}
           (Single (CObject {| role := Some "model";
                               parts := Some [textPart ""] |}))
           "model" "");
    [reflexivity | reflexivity | by right].
Defined.

(** C10. In every adapter a content object whose role is neither ['user']
    nor ['model'] produces no message, and the request translates exactly
    as the request without it: with the element removed from the contents
    array or, where it is the only content, with no contents at all. *)
Theorem other_role_omitted (a : Adapter) (cfg : option GenerateContentConfig)
    (before after : list ContentUnion) (o : Content) :
  role_is o "user" = false →
  role_is o "model" = false →
  contentMessages a (CObject o) = [] ∧
  convertMessages a
    {| req_contents := Some (Many (before ++ CObject o :: after));
       req_config := cfg |} =
  convertMessages a
    {| req_contents := Some (Many (before ++ after)); req_config := cfg |} ∧
  convertMessages a
    {| req_contents := Some (Single (CObject o)); req_config := cfg |} =
  convertMessages a {| req_contents := None; req_config := cfg |}.
Proof.
  intros Hu Hm.
  assert (contentMessages a (CObject o) = []) as E
    by (destruct a; simpl; by rewrite Hu, Hm).
  split; [exact E |].
  rewrite !convertMessages_unfold.
  cbn [req_contents contents_truthy Shared.normalizeContents].
  rewrite !flat_map_app. cbn [flat_map]. rewrite E.
  split; f_equal; apply leadingMessages_config.
Qed.

Lemma other_role_omitted_witness :
  convertMessages Anthropic
    {| req_contents :=
         Some (Many ([CString "hi"] ++
                     CObject {| role := Some "function"; parts := Some [textPart "x"] |}
                     :: [CObject {| role := Some "model"; parts := Some [textPart "yo"] |}]));
       req_config := None |} =
  [ {| msg_role := "user"; msg_content := Str "hi" |};
    {| msg_role := "assistant"; msg_content := Str "yo" |} ].
Proof.
  apply (proj1 (proj2 (other_role_omitted Anthropic None [CString "hi"]
           [CObject {| role := Some "model"; parts := Some [textPart "yo"] |}]
           {| role := Some "function"; parts := Some [textPart "x"] |}
           ltac:(reflexivity) ltac:(reflexivity)))).
Defined.

(** *** Parts with inline data *)


Lemma elem_of_flat_map {A B : Type} (f : A → list B) (l : list A) (x : A) (y : B) :
  x ∈ l → y ∈ f x → y ∈ flat_map f l.
Proof.
  rewrite !list_elem_of_In, in_flat_map. eauto.
Qed.

Lemma elem_of_map {A B : Type} (f : A → B) (l : list A) (x : A) :
  x ∈ l → f x ∈ map f l.
Proof. rewrite !list_elem_of_In. apply in_map. Qed.








(* ===================================================================== *)
(** ** Further properties: config resolution                              *)
(* ===================================================================== *)

Lemma or_undefined_Some (x : option string) (k : string) :
  JS.or_undefined x = Some k ↔ x = Some k ∧ k ≠ "".
Proof.
  unfold JS.or_undefined. destruct x as [s |].
  - destruct (JS.truthy s) eqn:E.
    + apply truthy_nonempty in E. split.
      * intros [= <-]. by split.
      * by intros [[= <-] _].
    + split; [done |]. intros [[= ->] Hk].
      apply truthy_nonempty in Hk. congruence.
  - split; [done | by intros [? _]].
Qed.

Lemma present_Some (x : option string) :
  present x = true ↔ ∃ k, x = Some k.
Proof.
  destruct x as [k |]; simpl; split; try done; [by exists k | by intros [? ?]].
Qed.

(** X1. In a secondary-provider mode whose credential is set, the whole
    resolution is determined: the credential, which is not empty, becomes
    the apiKey, the provider tag is the mode's, auth type and proxy are
    the requested ones, vertexai stays unset, the model is the default or
    the current one, and no effective-model check is made. *)
Theorem secondary_resolution (D : string) (env : Env) (config : Config)
    (m : AuthType) (k : string) :
  secondary m = true →
  credential env m = Some k →
  k ≠ "" ∧
  createContentGeneratorConfig D env config (Some m) =
  {| resolved :=
       {| model := if JS.includes (JS.or_else (getModel config) D) "gemini"
                   then defaultModel m
                   else JS.or_else (getModel config) D;
          apiKey := Some k; vertexai := None; authType := Some m;
          proxy := getProxy config; provider := Some (providerOf m) |};
     getEffectiveModel_call := None |}.
Proof.
  intros Hs Hk. split.
  - destruct m; try discriminate Hs; simpl in Hk;
      by apply or_undefined_Some in Hk as [_ ?].
  - destruct m; try discriminate Hs; simpl in Hk;
      unfold createContentGeneratorConfig; settle_modes;
      rewrite Hk; reflexivity.
Qed.

Lemma secondary_resolution_witness :
  createContentGeneratorConfig "gemini-2.5-pro"
    {[ "META_API_KEY" := "test-key" ]}
    {| getModel := Some "llama-3.1-70b-instruct"; getProxy := None |}
    (Some USE_META_LLAMA) =
  {| resolved :=
       {| model := "llama-3.1-70b-instruct"; apiKey := Some "test-key";
          vertexai := None; authType := Some USE_META_LLAMA; proxy := None;
          provider := Some meta |};
     getEffectiveModel_call := None |}.
Proof.
  apply (proj2 (secondary_resolution "gemini-2.5-pro"
                  {[ "META_API_KEY" := "test-key" ]}
                  {| getModel := Some "llama-3.1-70b-instruct"; getProxy := None |}
                  USE_META_LLAMA "test-key" ltac:(reflexivity) ltac:(reflexivity))).
Defined.

(** X2. The provider tag stays unset exactly when the environment lacks
    what the requested mode needs (or no mode is requested); the resolver
    then returns the config it started from, without apiKey, and makes no
    effective-model check: an absent credential is not an error here. *)
Theorem unmatched_resolution (D : string) (env : Env) (config : Config)
    (mode : option AuthType) :
  (provider (resolved (createContentGeneratorConfig D env config mode)) = None
   ↔ requirementMet env mode = false) ∧
  (requirementMet env mode = false →
   createContentGeneratorConfig D env config mode =
   {| resolved := baseConfig D config mode; getEffectiveModel_call := None |}).
Proof.
  unfold createContentGeneratorConfig, requirementMet, baseConfig.
  destruct mode as [[] |]; settle_modes; simpl credential;
    repeat match goal with
           | |- context [present ?x] => destruct (present x) eqn:?
           end; cbn [andb orb resolved provider];
    (split; [split; intros Hx | intros Hx]);
    try discriminate; reflexivity.
Qed.

Lemma unmatched_resolution_witness :
  createContentGeneratorConfig "gemini-2.5-pro"
    {[ "OPENAI_API_KEY" := "k" ]}
    {| getModel := None; getProxy := Some "http://proxy" |}
    (Some USE_ANTHROPIC) =
  {| resolved :=
       {| model := "gemini-2.5-pro"; apiKey := None; vertexai := None;
          authType := Some USE_ANTHROPIC; proxy := Some "http://proxy";
          provider := None |};
     getEffectiveModel_call := None |}.
Proof.
  apply (proj2 (unmatched_resolution "gemini-2.5-pro"
                  {[ "OPENAI_API_KEY" := "k" ]}
                  {| getModel := None; getProxy := Some "http://proxy" |}
                  (Some USE_ANTHROPIC))).
  reflexivity.
Defined.

(** Membership in a literal list. *)
Ltac in_list :=
  simpl; repeat first [apply list_elem_of_here | apply list_elem_of_further].

(** X3. Whatever the resolver puts into apiKey is a non-empty value of one
    of the credential variables of the requested mode's own provider: a
    key of another provider never ends up in the config. *)
Theorem resolved_key_provenance (D : string) (env : Env) (config : Config)
    (mode : option AuthType) (k : string) :
  apiKey (resolved (createContentGeneratorConfig D env config mode)) = Some k →
  k ≠ "" ∧ ∃ v, v ∈ credentialVars mode ∧ env !! v = Some k.
Proof.
  unfold createContentGeneratorConfig.
  destruct mode as [[] |]; settle_modes.
  all: repeat match goal with
              | |- context [present ?x] => destruct (present x) eqn:?
              end; cbn [andb orb resolved apiKey]; try discriminate;
       intros Hk.
  all: try (apply or_undefined_Some in Hk as [Hk ?]; split; [done |]).
  all: try (eexists; split; [| exact Hk]; in_list).
  unfold JS.or_opt in Hk.
  destruct (JS.truthy_opt (env !! "META_API_KEY"));
    (eexists; split; [| exact Hk]; in_list).
Qed.

Lemma resolved_key_provenance_witness :
  "k2" ≠ "" ∧
  ∃ v, v ∈ credentialVars (Some USE_META_LLAMA) ∧
       ({[ "LLAMA_API_KEY" := "k2" ]} : Env) !! v = Some "k2".
Proof.
  apply (resolved_key_provenance "gemini-2.5-pro"
           {[ "LLAMA_API_KEY" := "k2" ]}
           {| getModel := None; getProxy := None |} (Some USE_META_LLAMA) "k2").
  reflexivity.
Defined.

(** X4. For Meta Llama the key is META_API_KEY when that is set and not
    empty, and otherwise LLAMA_API_KEY (when that is set and not empty):
    the first alias wins, and an empty first alias falls through to the
    second. *)
Theorem meta_key_alias (D : string) (env : Env) (config : Config) :
  apiKey (resolved (createContentGeneratorConfig D env config (Some USE_META_LLAMA))) =
  if JS.truthy_opt (env !! "META_API_KEY")
  then env !! "META_API_KEY"
  else JS.or_undefined (env !! "LLAMA_API_KEY").
Proof.
  unfold createContentGeneratorConfig. settle_modes.
  unfold JS.or_opt.
  destruct (env !! "META_API_KEY") as [k1 |] eqn:E1; simpl.
  - destruct (JS.truthy k1) eqn:T1; simpl; [by rewrite T1 |].
    by destruct (JS.or_undefined (env !! "LLAMA_API_KEY")).
  - by destruct (JS.or_undefined (env !! "LLAMA_API_KEY")).
Qed.

(** X5. The model is replaced only in a secondary-provider mode whose
    credential is set, and only when it mentions ["gemini"]: in every
    other resolution (every Google mode, every unmatched mode) the
    resolved model is the configured model or, when that is empty or
    absent, the default Gemini model; auth type and proxy are always the
    requested ones. *)
Theorem model_replaced_only_for_secondary (D : string) (env : Env)
    (config : Config) (mode : option AuthType) :
  let r := resolved (createContentGeneratorConfig D env config mode) in
  authType r = mode ∧
  proxy r = getProxy config ∧
  (model r ≠ JS.or_else (getModel config) D →
   ∃ m, mode = Some m ∧ secondary m = true ∧
        present (credential env m) = true ∧
        JS.includes (JS.or_else (getModel config) D) "gemini" = true ∧
        model r = defaultModel m).
Proof.
  unfold createContentGeneratorConfig.
  destruct mode as [[] |]; settle_modes.
  all: repeat match goal with
              | |- context [present ?x] => destruct (present x) eqn:?
              end; cbn [andb orb resolved authType proxy model];
       (split; [reflexivity |]; split; [reflexivity |]); intros Hne;
       try congruence.
  all: destruct (JS.includes (JS.or_else (getModel config) D) "gemini") eqn:Hg;
       [| congruence].
  all: eexists; split; [reflexivity |]; split; [reflexivity |];
       split; [simpl; assumption |]; split; reflexivity.
Qed.

Lemma model_replaced_only_for_secondary_witness :
  ∃ m, Some USE_OPENAI = Some m ∧ secondary m = true ∧
       present (credential {[ "OPENAI_API_KEY" := "k" ]} m) = true ∧
       JS.includes
         (JS.or_else
            (getModel {| getModel := Some "gemini-2.5-pro"; getProxy := None |})
            "gemini-2.5-pro") "gemini" = true ∧
       model (resolved (createContentGeneratorConfig "gemini-2.5-pro"
                {[ "OPENAI_API_KEY" := "k" ]}
                {| getModel := Some "gemini-2.5-pro"; getProxy := None |}
                (Some USE_OPENAI))) = defaultModel m.
Proof.
  apply (proj2 (proj2 (model_replaced_only_for_secondary "gemini-2.5-pro"
           {[ "OPENAI_API_KEY" := "k" ]}
           {| getModel := Some "gemini-2.5-pro"; getProxy := None |}
           (Some USE_OPENAI)))).
  discriminate.
Defined.

(** X6. The effective-model check is made exactly in the Gemini API-key
    mode with a non-empty GEMINI_API_KEY, with that key, the unchanged
    model and the proxy; the config is then tagged for Google with
    vertexai false. *)
Theorem effective_model_check (D : string) (env : Env) (config : Config)
    (mode : option AuthType) :
  let r := createContentGeneratorConfig D env config mode in
  (getEffectiveModel_call r ≠ None ↔
   mode = Some USE_GEMINI ∧ JS.truthy_opt (env !! "GEMINI_API_KEY") = true) ∧
  (∀ k, mode = Some USE_GEMINI → env !! "GEMINI_API_KEY" = Some k → k ≠ "" →
        r = {| resolved :=
                 {| model := JS.or_else (getModel config) D; apiKey := Some k;
                    vertexai := Some false; authType := mode;
                    proxy := getProxy config; provider := Some google |};
               getEffectiveModel_call :=
                 Some (k, JS.or_else (getModel config) D, getProxy config) |}).
Proof.
  split.
  - unfold createContentGeneratorConfig.
    destruct mode as [[] |]; settle_modes.
    all: repeat match goal with
                | |- context [present ?x] => destruct (present x) eqn:?
                end; cbn [andb orb getEffectiveModel_call];
         try (split; [congruence | intros [? _]; congruence]).
    + split; [intros _ | done]. split; [reflexivity |].
      destruct (env !! "GEMINI_API_KEY") as [k |]; [| discriminate].
      simpl in *. by destruct (JS.truthy k).
    + split; [congruence |]. intros [_ Ht].
      destruct (env !! "GEMINI_API_KEY") as [k |]; [| discriminate].
      simpl in *. by rewrite Ht in *.
  - intros k -> Hk Hne. unfold createContentGeneratorConfig.
    settle_modes. rewrite Hk. simpl.
    apply truthy_nonempty in Hne. by rewrite Hne.
Qed.

Lemma effective_model_check_witness :
  createContentGeneratorConfig "gemini-2.5-pro" {[ "GEMINI_API_KEY" := "gk" ]}
    {| getModel := Some "gemini-2.5-flash"; getProxy := None |} (Some USE_GEMINI) =
  {| resolved :=
       {| model := "gemini-2.5-flash"; apiKey := Some "gk";
          vertexai := Some false; authType := Some USE_GEMINI;
          proxy := None; provider := Some google |};
     getEffectiveModel_call := Some ("gk", "gemini-2.5-flash", None) |}.
Proof.
  apply (proj2 (effective_model_check "gemini-2.5-pro"
                  {[ "GEMINI_API_KEY" := "gk" ]}
                  {| getModel := Some "gemini-2.5-flash"; getProxy := None |}
                  (Some USE_GEMINI)) "gk");
    [reflexivity | reflexivity | discriminate].
Defined.

(** X7. In Vertex mode a Google API key, or project and location
    together, is enough; the apiKey of the config is the Google API key,
    absent when only project and location are set, and vertexai is true.
    Project alone or location alone is not enough. *)
Theorem vertex_resolution (D : string) (env : Env) (config : Config) :
  let r := resolved (createContentGeneratorConfig D env config (Some USE_VERTEX_AI)) in
  (requirementMet env (Some USE_VERTEX_AI) = true →
   r = {| model := JS.or_else (getModel config) D;
          apiKey := JS.or_undefined (env !! "GOOGLE_API_KEY");
          vertexai := Some true; authType := Some USE_VERTEX_AI;
          proxy := getProxy config; provider := Some google |}) ∧
  (JS.truthy_opt (env !! "GOOGLE_API_KEY") = false →
   JS.truthy_opt (env !! "GOOGLE_CLOUD_PROJECT") = false ∨
   JS.truthy_opt (env !! "GOOGLE_CLOUD_LOCATION") = false →
   vertexai r = None ∧ provider r = None).
Proof.
  assert (∀ x, present (JS.or_undefined x) = JS.truthy_opt x) as Hp.
  { intros [s |]; simpl; [by destruct (JS.truthy s) | done]. }
  unfold requirementMet, createContentGeneratorConfig. settle_modes.
  rewrite !Hp. split.
  - by intros ->.
  - intros -> [-> | ->]; simpl; [done |].
    by destruct (JS.truthy_opt (env !! "GOOGLE_CLOUD_PROJECT")).
Qed.

Lemma vertex_resolution_witness :
  resolved (createContentGeneratorConfig "gemini-2.5-pro"
    {[ "GOOGLE_CLOUD_PROJECT" := "p"; "GOOGLE_CLOUD_LOCATION" := "us" ]}
    {| getModel := None; getProxy := None |} (Some USE_VERTEX_AI)) =
  {| model := "gemini-2.5-pro"; apiKey := None; vertexai := Some true;
     authType := Some USE_VERTEX_AI; proxy := None; provider := Some google |}.
Proof.
  rewrite (proj1 (vertex_resolution "gemini-2.5-pro"
                    {[ "GOOGLE_CLOUD_PROJECT" := "p"; "GOOGLE_CLOUD_LOCATION" := "us" ]}
                    {| getModel := None; getProxy := None |}))
    by (vm_compute; reflexivity).
  vm_compute. reflexivity.
Defined.

(* ===================================================================== *)
(** ** Further properties: generator factory                              *)
(* ===================================================================== *)

(** X8. The factory throws exactly when no auth type is set or a
    secondary-provider mode comes without a usable apiKey; in every other
    case, the Google modes without any key included, it returns after
    exactly one external call. *)
Theorem factory_throws_iff (process : Process) (env : Env)
    (config : ContentGeneratorConfig) (gcConfig : Config)
    (sessionId : option string) :
  ((∃ msg, (createContentGenerator process env config gcConfig sessionId).2
           = Throws msg) ↔
   (authType config = None ∨
    ∃ m, authType config = Some m ∧ secondary m = true ∧
         JS.truthy_opt (apiKey config) = false)) ∧
  ((createContentGenerator process env config gcConfig sessionId).2 = Returns →
   ∃ c, (createContentGenerator process env config gcConfig sessionId).1 = [c]).
Proof.
  unfold createContentGenerator.
  destruct (authType config) as [m |] eqn:Hm.
  - destruct m;
      try (split; [split; [intros [msg H]; discriminate H
                          | intros [H | (m' & [= <-] & H & _)]; discriminate H]
                  | intros _; eexists; reflexivity]);
      (destruct (apiKey config) as [k |] eqn:Hk; simpl;
       [destruct (JS.truthy k) eqn:Ht |]; simpl;
       (split; [split | intros H; try discriminate H; eexists; reflexivity])).
    all: try (intros [msg H]; discriminate H).
    all: try (intros [H | (m' & _ & _ & H)]; discriminate H).
    all: try (intros _; eexists; reflexivity).
    all: intros _; right; eexists; split_and!; reflexivity.
  - simpl. split; [split; [intros _; by left | intros _; eexists; reflexivity]
                  | intros H; discriminate H].
Qed.

Lemma factory_throws_iff_witness :
  ∃ c, (createContentGenerator
          {| version := "v20.0.0"; platform := "linux"; arch := "x64" |} ∅
          {| model := "gemini-2.5-pro"; apiKey := None; vertexai := None;
             authType := Some USE_GEMINI; proxy := None; provider := None |}
          {| getModel := None; getProxy := None |} None).1 = [c].
Proof.
  apply (proj2 (factory_throws_iff
                  {| version := "v20.0.0"; platform := "linux"; arch := "x64" |} ∅
                  {| model := "gemini-2.5-pro"; apiKey := None; vertexai := None;
                     authType := Some USE_GEMINI; proxy := None; provider := None |}
                  {| getModel := None; getProxy := None |} None)).
  reflexivity.
Defined.

(** X9. Resolving a secondary-provider mode whose credential is set and
    handing the result to the factory constructs that provider's adapter
    with that credential: OpenAI with the proxy as base URL, Anthropic
    with the key alone, Meta Llama with the proxy or, when there is none,
    the Together endpoint. *)
Theorem resolve_then_create (process : Process) (D : string) (env env' : Env)
    (config gcConfig : Config) (sessionId : option string)
    (m : AuthType) (k : string) :
  secondary m = true →
  credential env m = Some k →
  createContentGenerator process env'
    (resolved (createContentGeneratorConfig D env config (Some m)))
    gcConfig sessionId =
  (adapterCall m k (getProxy config), Returns).
Proof.
  intros Hs Hk.
  assert (JS.truthy k = true) as Ht.
  { destruct m; try discriminate Hs; simpl in Hk;
      apply or_undefined_Some in Hk as [_ Hk]; by apply truthy_nonempty. }
  destruct m; try discriminate Hs; simpl in Hk;
    unfold createContentGeneratorConfig; settle_modes; rewrite Hk;
    unfold createContentGenerator; simpl; by rewrite Ht.
Qed.

Lemma resolve_then_create_witness :
  createContentGenerator
    {| version := "v20.0.0"; platform := "linux"; arch := "x64" |} ∅
    (resolved (createContentGeneratorConfig "gemini-2.5-pro"
                 {[ "LLAMA_API_KEY" := "lk" ]}
                 {| getModel := None; getProxy := None |} (Some USE_META_LLAMA)))
    {| getModel := None; getProxy := None |} None =
  ([new_MetaLlamaAdapter "lk" "https://api.together.xyz/v1"], Returns).
Proof.
  apply (resolve_then_create
           {| version := "v20.0.0"; platform := "linux"; arch := "x64" |}
           "gemini-2.5-pro" {[ "LLAMA_API_KEY" := "lk" ]} ∅
           {| getModel := None; getProxy := None |}
           {| getModel := None; getProxy := None |} None USE_META_LLAMA "lk");
    reflexivity.
Defined.

(** X10. Resolving a secondary-provider mode whose credential is missing
    (unset or empty) does not fail, but the factory then throws the error
    that names the provider's API key, before any external call. *)
Theorem resolve_then_create_missing (process : Process) (D : string)
    (env env' : Env) (config gcConfig : Config) (sessionId : option string)
    (m : AuthType) :
  secondary m = true →
  credential env m = None →
  createContentGenerator process env'
    (resolved (createContentGeneratorConfig D env config (Some m)))
    gcConfig sessionId =
  ([], Throws (credentialName m +:+ " is required but not provided")).
Proof.
  intros Hs Hk.
  destruct m; try discriminate Hs; simpl in Hk;
    unfold createContentGeneratorConfig; settle_modes; rewrite Hk;
    reflexivity.
Qed.

Lemma resolve_then_create_missing_witness :
  createContentGenerator
    {| version := "v20.0.0"; platform := "linux"; arch := "x64" |} ∅
    (resolved (createContentGeneratorConfig "gemini-2.5-pro"
                 {[ "OPENAI_API_KEY" := "" ]}
                 {| getModel := None; getProxy := None |} (Some USE_OPENAI)))
    {| getModel := None; getProxy := None |} None =
  ([], Throws "OpenAI API key is required but not provided").
Proof.
  apply (resolve_then_create_missing
           {| version := "v20.0.0"; platform := "linux"; arch := "x64" |}
           "gemini-2.5-pro" {[ "OPENAI_API_KEY" := "" ]} ∅
           {| getModel := None; getProxy := None |}
           {| getModel := None; getProxy := None |} None USE_OPENAI);
    reflexivity.
Defined.

(** X11. No constructor the factory calls receives an empty API key: the
    adapters get a non-empty key, the Google client gets a non-empty key
    or none at all (an empty one is turned into none), and the Meta Llama
    adapter never gets an empty base URL. *)
Theorem factory_calls_well_formed (process : Process) (env : Env)
    (config : ContentGeneratorConfig) (gcConfig : Config)
    (sessionId : option string) (c : ExternalCall) :
  c ∈ (createContentGenerator process env config gcConfig sessionId).1 →
  wellFormedCall c.
Proof.
  unfold createContentGenerator.
  destruct (authType config) as [[] |];
    try (destruct (apiKey config) as [k |] eqn:Hk;
         [destruct (JS.truthy k) eqn:Ht |]); simpl;
    intros Hc; try (by apply elem_of_nil in Hc);
    apply list_elem_of_singleton in Hc as ->; simpl; try done.
  all: try (by apply truthy_nonempty).
  all: try (destruct (String.eqb_spec k ""); congruence).
  split; [by apply truthy_nonempty |].
  unfold JS.or_else. destruct (proxy config) as [u |]; [| done].
  destruct (JS.truthy u) eqn:Hu; [by apply truthy_nonempty | done].
Qed.

Lemma factory_calls_well_formed_witness :
  wellFormedCall (new_GoogleGenAI None (Some true) "GeminiCLI/v20.0.0 (linux; x64)").
Proof.
  apply (factory_calls_well_formed
           {| version := "v20.0.0"; platform := "linux"; arch := "x64" |} ∅
           {| model := "gemini-2.5-pro"; apiKey := Some ""; vertexai := Some true;
              authType := Some USE_VERTEX_AI; proxy := None; provider := None |}
           {| getModel := None; getProxy := None |} None).
  vm_compute. apply list_elem_of_here.
Defined.

(* ===================================================================== *)
(** ** Further properties: finish reasons and token estimates             *)
(* ===================================================================== *)

(** Settles a chain of string comparisons on [s]. *)
Ltac string_cases s :=
  repeat match goal with
         | |- context [String.eqb s ?k] =>
             destruct (String.eqb_spec s k) as [-> | ?]
         end.

(** X12. The OpenAI and the Meta Llama adapter map every provider finish
    reason alike, except [tool_calls] (STOP for OpenAI, OTHER for Meta
    Llama). *)
Theorem finish_reason_openai_vs_meta (r : option string) :
  OpenAIAdapter.mapFinishReason r = MetaLlamaAdapter.mapFinishReason r ↔
  r ≠ Some "tool_calls".
Proof.
  destruct r as [s |]; [| done].
  unfold OpenAIAdapter.mapFinishReason, MetaLlamaAdapter.mapFinishReason.
  string_cases s; split; try done; try congruence.
Qed.

(** X13. SAFETY is the image of [content_filter] alone, and only in the
    OpenAI and Meta Llama adapters: the Anthropic adapter never reports
    SAFETY. MAX_TOKENS is the image of exactly one provider string per
    adapter, [max_tokens] for Anthropic and [length] for the others. *)
Theorem finish_reason_preimages (a : Adapter) (r : option string) :
  (mapFinishReason a r = SAFETY ↔ a ≠ Anthropic ∧ r = Some "content_filter") ∧
  (mapFinishReason a r = MAX_TOKENS ↔
   r = Some match a with Anthropic => "max_tokens" | _ => "length" end).
Proof.
  destruct r as [s |]; [| by destruct a; split; split; try done; intros [? ?]].
  destruct a; simpl;
    unfold OpenAIAdapter.mapFinishReason, AnthropicAdapter.mapFinishReason,
      MetaLlamaAdapter.mapFinishReason;
    string_cases s; split; split; try done; try congruence;
    try (intros [? ?]; congruence).
Qed.

Lemma length_append (s t : string) :
  String.length (s +:+ t) = String.length s + String.length t.
Proof.
  induction s as [| c s IH]; [done |]. rewrite append_cons. simpl. by rewrite IH.
Qed.

(** X14. The estimate brackets the text length: with L the length of the
    extracted text and n the estimate, 0 <= n <= L, and n is the least
    integer with L <= 4 n for OpenAI and Meta Llama, with 2 L <= 7 n for
    Anthropic. *)
Theorem countTokens_bounds (a : Adapter) (request : CountTokensParameters) :
  let L := Z.of_nat (String.length
                       (Shared.extractTextFromContents (ct_contents request))) in
  let n := totalTokens (countTokens a request) in
  (0 ≤ n ≤ L)%Z ∧
  match a with
  | Anthropic => (7 * (n - 1) < 2 * L ≤ 7 * n)%Z
  | _ => (4 * (n - 1) < L ≤ 4 * n)%Z
  end.
Proof.
  intros L n. assert (0 ≤ L)%Z as HL by (subst L; lia).
  destruct a; subst n; simpl;
    unfold OpenAIAdapter.extractTextFromContents,
      AnthropicAdapter.extractTextFromContents,
      MetaLlamaAdapter.extractTextFromContents; fold L;
    rewrite ?ceiling_div_4, ?ceiling_div_3_5;
    Z.div_mod_to_equations; lia.
Qed.

(** X15. For each adapter a longer extracted text never gets a smaller
    estimate; on the same request OpenAI and Meta Llama agree and
    Anthropic's estimate is at least theirs. *)
Theorem countTokens_monotone (a : Adapter) (r1 r2 : CountTokensParameters) :
  (String.length (Shared.extractTextFromContents (ct_contents r1)) ≤
   String.length (Shared.extractTextFromContents (ct_contents r2)) →
   (totalTokens (countTokens a r1) ≤ totalTokens (countTokens a r2))%Z) ∧
  totalTokens (countTokens OpenAI r1) = totalTokens (countTokens MetaLlama r1) ∧
  (totalTokens (countTokens OpenAI r1) ≤ totalTokens (countTokens Anthropic r1))%Z.
Proof.
  split; [| split].
  - intros H. destruct a; simpl;
      unfold OpenAIAdapter.extractTextFromContents,
        AnthropicAdapter.extractTextFromContents,
        MetaLlamaAdapter.extractTextFromContents;
      rewrite ?ceiling_div_4, ?ceiling_div_3_5;
      Z.div_mod_to_equations; lia.
  - reflexivity.
  - simpl.
    unfold OpenAIAdapter.extractTextFromContents,
      AnthropicAdapter.extractTextFromContents.
    rewrite ceiling_div_4, ceiling_div_3_5.
    Z.div_mod_to_equations; lia.
Qed.

Lemma countTokens_monotone_witness :
  (totalTokens (countTokens Anthropic {| ct_contents := Single (CString "abc") |}) ≤
   totalTokens (countTokens Anthropic {| ct_contents := Single (CString "abcdefgh") |}))%Z.
Proof.
  apply (proj1 (countTokens_monotone Anthropic
                  {| ct_contents := Single (CString "abc") |}
                  {| ct_contents := Single (CString "abcdefgh") |})).
  simpl. lia.
Defined.

Lemma partsText_erase (ps : list Part) :
  Shared.partsText (map erasePart ps) = Shared.partsText ps.
Proof. unfold Shared.partsText. by rewrite map_map. Qed.

Lemma elementText_erase (c : ContentUnion) :
  Shared.elementText (eraseContent c) = Shared.elementText c.
Proof.
  destruct c as [s | o]; [done |]. simpl.
  destruct (parts o); [apply partsText_erase | done].
Qed.

Lemma extractText_erase (cs : ContentListUnion) :
  Shared.extractTextFromContents (eraseMedia cs) =
  Shared.extractTextFromContents cs.
Proof.
  destruct cs as [[s | o] | l]; simpl.
  - done.
  - destruct (parts o); [apply partsText_erase | done].
  - rewrite map_map. f_equal. apply map_ext, elementText_erase.
Qed.

(** X16. The estimate depends on the texts alone: removing every role and
    every inline-data blob from the contents leaves the estimate of each
    adapter unchanged (images count for nothing). *)
Theorem countTokens_ignores_media (a : Adapter) (cs : ContentListUnion) :
  countTokens a {| ct_contents := eraseMedia cs |} =
  countTokens a {| ct_contents := cs |}.
Proof.
  destruct a; simpl;
    unfold OpenAIAdapter.countTokens, AnthropicAdapter.countTokens,
      MetaLlamaAdapter.countTokens,
      OpenAIAdapter.extractTextFromContents,
      AnthropicAdapter.extractTextFromContents,
      MetaLlamaAdapter.extractTextFromContents; simpl ct_contents;
    by rewrite extractText_erase.
Qed.

(** X17. The text extracted from contents is the text extracted from its
    normalized array: a lone string or content counts as the one-element
    array of it, for [extractTextFromContents] and so for every adapter's
    estimate. *)
Theorem extractText_normalized (a : Adapter) (cs : ContentListUnion) :
  Shared.extractTextFromContents (Many (Shared.normalizeContents cs)) =
    Shared.extractTextFromContents cs ∧
  countTokens a {| ct_contents := Many (Shared.normalizeContents cs) |} =
    countTokens a {| ct_contents := cs |}.
Proof.
  assert (Shared.extractTextFromContents (Many (Shared.normalizeContents cs)) =
          Shared.extractTextFromContents cs) as E
    by (by destruct cs as [[s | o] | l]).
  split; [exact E |].
  destruct a; simpl;
    unfold OpenAIAdapter.countTokens, AnthropicAdapter.countTokens,
      MetaLlamaAdapter.countTokens,
      OpenAIAdapter.extractTextFromContents,
      AnthropicAdapter.extractTextFromContents,
      MetaLlamaAdapter.extractTextFromContents; simpl ct_contents;
    by rewrite E.
Qed.

Lemma length_join (sep : string) (l : list string) :
  String.length (JS.join sep l) =
  totalLength l + (length l - 1) * String.length sep.
Proof.
  induction l as [| x [| y l] IH]; [done | simpl; lia |].
  change (JS.join sep (x :: y :: l)) with (x +:+ sep +:+ JS.join sep (y :: l)).
  rewrite !length_append, IH. simpl. lia.
Qed.

(** X18. The text extracted from a contents array has the length of the
    element texts together plus one separator between neighbours: empty
    elements (a content without text parts, an image) still cost their
    separator. The text of a content is built from its parts the same
    way. *)
Theorem extractText_length (l : list ContentUnion) (ps : list Part) :
  String.length (Shared.extractTextFromContents (Many l)) =
    totalLength (map Shared.elementText l) + (length l - 1) ∧
  String.length (Shared.partsText ps) =
    totalLength (map (fun p => JS.or_else (text p) "") ps) + (length ps - 1).
Proof.
  unfold Shared.partsText. simpl.
  rewrite !length_join, !length_map. simpl. lia.
Qed.

(* ===================================================================== *)
(** ** Further properties: request translation                            *)
(* ===================================================================== *)

(** An element of the contents gives one message, under its sent role, or
    none. *)
Lemma contentMessages_cases (a : Adapter) (c : ContentUnion) :
  (translatable c = true ∧
   ∃ mc, contentMessages a c = [ {| msg_role := sentRole c; msg_content := mc |} ]) ∨
  (translatable c = false ∧ contentMessages a c = []).
Proof.
  destruct a, c as [s | o]; simpl; eauto;
    destruct (role_is o "user"), (role_is o "model"); simpl; eauto.
Qed.

Lemma roles_of_contents (a : Adapter) (l : list ContentUnion) :
  map msg_role (flat_map (contentMessages a) l) =
  map sentRole (List.filter translatable l).
Proof.
  induction l as [| c l IH]; [done |]. simpl. rewrite map_app, IH.
  destruct (contentMessages_cases a c) as [[-> [mc ->]] | [-> ->]]; done.
Qed.

Lemma leadingMessages_cases (a : Adapter) (request : GenerateContentParameters) :
  leadingMessages a request = [] ∨
  ∃ s, leadingMessages a request = [ {| msg_role := "system"; msg_content := Str s |} ].
Proof.
  destruct a; simpl; auto; unfold systemMessages;
    destruct (req_config request) as [cfg |]; auto;
    destruct (systemInstruction cfg) as [si |]; auto;
    destruct (contents_truthy si); eauto.
Qed.

(** X19. The adapters send at most one system message, and first (the
    Anthropic adapter none), and then one message for each element of the
    normalized contents that is a string or has role user or model, in the
    order of the contents, under the roles user and assistant: elements
    are neither merged nor reordered, whatever the sequence of roles. *)
Theorem message_roles (a : Adapter) (request : GenerateContentParameters)
    (cs : ContentListUnion) :
  req_contents request = Some cs →
  contents_truthy cs = true →
  map msg_role (convertMessages a request) =
    map msg_role (leadingMessages a request) ++
    map sentRole (List.filter translatable (Shared.normalizeContents cs)) ∧
  (leadingMessages a request = [] ∨
   ∃ s, leadingMessages a request =
        [ {| msg_role := "system"; msg_content := Str s |} ]) ∧
  leadingMessages Anthropic request = [] ∧
  Forall (fun c => sentRole c = "user" ∨ sentRole c = "assistant")
    (Shared.normalizeContents cs).
Proof.
  intros Hc Ht. split; [| split; [apply leadingMessages_cases | split; [done |]]].
  - rewrite convertMessages_unfold, Hc, Ht, map_app. f_equal.
    apply roles_of_contents.
  - apply Forall_forall. intros [s | o] _; simpl; [by left |].
    destruct (role_is o "user"); auto.
Qed.

Lemma message_roles_witness :
  map msg_role
    (convertMessages Anthropic
       {| req_contents :=
            Some (Many [CObject {| role := Some "model"; parts := Some [textPart "a"] |};
                        CObject {| role := Some "model"; parts := Some [textPart "b"] |};
                        CString "c"]);
          req_config := None |}) = ["assistant"; "assistant"; "user"].
Proof.
  apply (proj1 (message_roles Anthropic
           {| req_contents :=
                Some (Many [CObject {| role := Some "model"; parts := Some [textPart "a"] |};
                            CObject {| role := Some "model"; parts := Some [textPart "b"] |};
                            CString "c"]);
              req_config := None |}
           (Many [CObject {| role := Some "model"; parts := Some [textPart "a"] |};
                  CObject {| role := Some "model"; parts := Some [textPart "b"] |};
                  CString "c"])
           ltac:(reflexivity) ltac:(reflexivity))).
Defined.

(** X20. Contents that are absent, or the empty bare string, give no
    message beyond the leading ones, while an empty string inside a
    contents array is sent as a user message with empty content. *)
Theorem empty_contents (a : Adapter) (cfg : option GenerateContentConfig)
    (before after : list ContentUnion) :
  convertMessages a {| req_contents := None; req_config := cfg |} =
    leadingMessages a {| req_contents := None; req_config := cfg |} ∧
  convertMessages a {| req_contents := Some (Single (CString ""));
                       req_config := cfg |} =
    convertMessages a {| req_contents := None; req_config := cfg |} ∧
  contentMessages a (CString "") =
    [ {| msg_role := "user"; msg_content := Str "" |} ] ∧
  {| msg_role := "user"; msg_content := Str "" |} ∈
    convertMessages a {| req_contents := Some (Many (before ++ CString "" :: after));
                         req_config := cfg |}.
Proof.
  split; [| split; [| split]].
  - rewrite convertMessages_unfold. cbn [req_contents]. apply app_nil_r.
  - rewrite !convertMessages_unfold. cbn [req_contents contents_truthy].
    change (JS.truthy "") with false. cbn iota.
    f_equal; apply leadingMessages_config.
  - by destruct a.
  - rewrite convertMessages_unfold.
    cbn [req_contents contents_truthy Shared.normalizeContents].
    apply elem_of_app. right.
    apply (elem_of_flat_map _ _ (CString "")).
    + apply elem_of_app. right. apply list_elem_of_here.
    + destruct a; apply list_elem_of_here.
Qed.

Lemma collapse_blocks (bs bs' : list ContentBlock) :
  collapse bs = Blocks bs' → bs' = bs ∧ ∀ t, bs ≠ [TextBlock t].
Proof.
  destruct bs as [| [t | u] [| b l]]; simpl; intros [= <-]; by split.
Qed.

Lemma text_of_nonempty (p : Part) : has_text p = true → text_of p ≠ "".
Proof.
  unfold has_text, text_of. destruct (text p) as [t |]; simpl; [| done].
  intros H. rewrite H. by apply truthy_nonempty.
Qed.

Lemma openai_pushed_nonempty (ps : list Part) :
  Forall nonEmptyBlock (flat_map OpenAIAdapter.pushed ps).
Proof.
  induction ps as [| p ps IH]; [constructor |]. simpl. apply Forall_app. split; [| done].
  unfold OpenAIAdapter.pushed. destruct (has_text p) eqn:E.
  - repeat constructor. by apply text_of_nonempty.
  - destruct (inlineData p); by repeat constructor.
Qed.

Lemma anthropic_pushed_text (ps : list Part) :
  Forall (fun b => nonEmptyBlock b ∧ ∃ t, b = TextBlock t)
    (flat_map AnthropicAdapter.pushed ps).
Proof.
  induction ps as [| p ps IH]; [constructor |]. simpl. apply Forall_app. split; [| done].
  unfold AnthropicAdapter.pushed. destruct (has_text p) eqn:E.
  - repeat constructor; [by apply text_of_nonempty | eauto].
  - destruct (inlineData p); repeat constructor; eauto. done.
Qed.

Lemma openai_parts_content (ps : list Part) (bs : list ContentBlock) :
  OpenAIAdapter.convertGeminiPartsToOpenAI ps = Blocks bs →
  Forall nonEmptyBlock bs ∧ ∀ t, bs ≠ [TextBlock t].
Proof.
  intros H.
  assert (collapse (flat_map OpenAIAdapter.pushed ps) = Blocks bs) as Hc.
  { unfold OpenAIAdapter.convertGeminiPartsToOpenAI in H.
    destruct ps as [| p [| q l]]; try exact H.
    by destruct (has_text p). }
  apply collapse_blocks in Hc as [-> Hn]. split; [apply openai_pushed_nonempty | done].
Qed.

Lemma anthropic_parts_content (ps : list Part) (bs : list ContentBlock) :
  AnthropicAdapter.convertGeminiPartsToAnthropic ps = Blocks bs →
  Forall (fun b => nonEmptyBlock b ∧ ∃ t, b = TextBlock t) bs ∧
  ∀ t, bs ≠ [TextBlock t].
Proof.
  intros H.
  assert (collapse (flat_map AnthropicAdapter.pushed ps) = Blocks bs) as Hc.
  { unfold AnthropicAdapter.convertGeminiPartsToAnthropic in H.
    destruct ps as [| p [| q l]]; try exact H.
    by destruct (has_text p && negb (bool_decide (is_Some (inlineData p)))). }
  apply collapse_blocks in Hc as [-> Hn]. split; [apply anthropic_pushed_text | done].
Qed.

Lemma elem_of_convertMessages (a : Adapter) (request : GenerateContentParameters)
    (m : Message) :
  m ∈ convertMessages a request →
  m ∈ leadingMessages a request ∨ ∃ c, m ∈ contentMessages a c.
Proof.
  rewrite convertMessages_unfold, elem_of_app. intros [H | H]; [by left | right].
  destruct (req_contents request) as [cs |]; [| by apply elem_of_nil in H].
  destruct (contents_truthy cs); [| by apply elem_of_nil in H].
  apply list_elem_of_In, in_flat_map in H as (c & _ & H).
  exists c. by apply list_elem_of_In.
Qed.

(** X21. What the content of a sent message can be. The Meta Llama
    adapter sends strings only, and so does the OpenAI adapter outside
    user messages. Where a block array is sent, it is never a lone text
    block (that is sent as the bare string), no text block in it is
    empty, and in the Anthropic adapter every block is a text block. *)
Theorem message_content_shapes (a : Adapter)
    (request : GenerateContentParameters) (m : Message) :
  m ∈ convertMessages a request →
  (a = MetaLlama → ∃ s, msg_content m = Str s) ∧
  (a = OpenAI → msg_role m ≠ "user" → ∃ s, msg_content m = Str s) ∧
  (∀ bs, msg_content m = Blocks bs →
         Forall nonEmptyBlock bs ∧ (∀ t, bs ≠ [TextBlock t]) ∧
         (a = Anthropic → Forall (fun b => ∃ t, b = TextBlock t) bs)).
Proof.
  intros Hm. apply elem_of_convertMessages in Hm as [Hm | [c Hm]].
  - destruct (leadingMessages_cases a request) as [E | [s E]];
      rewrite E in Hm; [by apply elem_of_nil in Hm |].
    apply list_elem_of_singleton in Hm as ->. simpl.
    split; [eauto | split; [eauto | discriminate]].
  - destruct a, c as [s | o]; simpl in Hm;
      try (apply list_elem_of_singleton in Hm as ->; simpl;
           split; [eauto; discriminate | split; [eauto; discriminate | discriminate]]);
      destruct (role_is o "user"); [| destruct (role_is o "model") | | destruct (role_is o "model") | | destruct (role_is o "model")];
      try (by apply elem_of_nil in Hm);
      apply list_elem_of_singleton in Hm as ->; simpl.
    + split; [discriminate |]. split; [done |]. intros bs Hb.
      apply openai_parts_content in Hb as [? ?]. split_and!; [done | done | discriminate].
    + split; [discriminate |]. split; [eauto |]. discriminate.
    + split; [discriminate |]. split; [discriminate |]. intros bs Hb.
      apply anthropic_parts_content in Hb as [Hf ?].
      split_and!; [| done |].
      * eapply Forall_impl; [exact Hf | by intros ? [? _]].
      * intros _. eapply Forall_impl; [exact Hf | by intros ? [_ ?]].
    + split; [discriminate |]. split; [discriminate |]. intros bs Hb.
      apply anthropic_parts_content in Hb as [Hf ?].
      split_and!; [| done |].
      * eapply Forall_impl; [exact Hf | by intros ? [? _]].
      * intros _. eapply Forall_impl; [exact Hf | by intros ? [_ ?]].
    + split; [eauto |]. split; [discriminate |]. discriminate.
    + split; [eauto |]. split; [discriminate |]. discriminate.
Qed.

Lemma message_content_shapes_witness :
  ∃ s, msg_content {| msg_role := "user"; msg_content := Str "hi" |} = Str s.
Proof.
  refine (proj1 (message_content_shapes MetaLlama
                   {| req_contents := Some (Single (CString "hi"));
                      req_config := None |}
                   {| msg_role := "user"; msg_content := Str "hi" |} _) eq_refl).
  vm_compute. apply list_elem_of_here.
Defined.

(** X22. A system instruction given as a string or as one content reaches
    every provider with the same text: as the single leading system
    message of the OpenAI and Meta Llama adapters and as the system prompt
    of the Anthropic adapter; a string reaches them unchanged. An empty
    string is no system instruction at all. Given as an array, the
    Anthropic adapter sends an empty system prompt whatever the array
    holds, while the other two send its joined text. *)
Theorem system_instruction_channel (cs : option ContentListUnion)
    (c : ContentUnion) (l : list ContentUnion) :
  (contents_truthy (Single c) = true →
   ∀ a, a ≠ Anthropic →
     leadingMessages a
       {| req_contents := cs;
          req_config := Some {| systemInstruction := Some (Single c) |} |} =
     [ {| msg_role := "system"; msg_content := Str (Shared.elementText c) |} ]) ∧
  (contents_truthy (Single c) = true →
   AnthropicAdapter.extractSystemPrompt
     {| req_contents := cs;
        req_config := Some {| systemInstruction := Some (Single c) |} |} =
   Some (Shared.elementText c)) ∧
  (∀ a, leadingMessages a
          {| req_contents := cs;
             req_config := Some {| systemInstruction := Some (Single (CString "")) |} |}
        = []) ∧
  AnthropicAdapter.extractSystemPrompt
    {| req_contents := cs;
       req_config := Some {| systemInstruction := Some (Single (CString "")) |} |}
  = None ∧
  AnthropicAdapter.extractSystemPrompt
    {| req_contents := cs;
       req_config := Some {| systemInstruction := Some (Many l) |} |} = Some "" ∧
  (∀ a, a ≠ Anthropic →
     leadingMessages a
       {| req_contents := cs;
          req_config := Some {| systemInstruction := Some (Many l) |} |} =
     [ {| msg_role := "system";
          msg_content := Str (JS.join " " (map Shared.elementText l)) |} ]).
Proof.
  split_and!.
  - intros Ht a Ha.
    destruct a; try done; destruct c as [s | o]; simpl in *;
      unfold systemMessages; simpl; by rewrite ?Ht.
  - intros Ht. unfold AnthropicAdapter.extractSystemPrompt.
    destruct c as [s | o]; simpl in *; by rewrite ?Ht.
  - by intros [].
  - done.
  - done.
  - intros a Ha. by destruct a.
Qed.

Lemma system_instruction_channel_witness :
  AnthropicAdapter.extractSystemPrompt
    {| req_contents := None;
       req_config := Some {| systemInstruction := Some (Single (CString "be brief")) |} |} =
  Some "be brief".
Proof.
  apply (proj1 (proj2 (system_instruction_channel None (CString "be brief") []))).
  reflexivity.
Defined.

(* ===================================================================== *)
(** ** Further properties: response translation and streaming             *)
(* ===================================================================== *)

(** X23. A provider response is translated unless it is an OpenAI-style
    response without choices (then reading the first choice throws). The
    translation always has exactly one candidate, of index 0 and role
    model, with one text part, and always a finish reason: the mapped
    reason of the first choice (of the message, for Anthropic), OTHER
    when the provider gave none. *)
Theorem response_shape (a : Adapter) (resp : ProviderResponse a) :
  (convertResponse a resp = None ↔ has_choice a resp = false) ∧
  (∀ out, convertResponse a resp = Some out →
     ∃ t, candidates out =
          [ {| cand_content := modelContent t;
               finishReason := Some (mapFinishReason a (suppliedReason a resp));
               index := 0 |} ]) ∧
  (suppliedReason a resp = None →
   ∀ out c, convertResponse a resp = Some out → c ∈ candidates out →
            finishReason c = Some OTHER).
Proof.
  assert (∀ out, convertResponse a resp = Some out →
     ∃ t, candidates out =
          [ {| cand_content := modelContent t;
               finishReason := Some (mapFinishReason a (suppliedReason a resp));
               index := 0 |} ]) as Hshape.
  { destruct a; simpl in *;
      unfold OpenAIAdapter.convertOpenAIToGeminiResponse,
        AnthropicAdapter.convertAnthropicToGeminiResponse,
        MetaLlamaAdapter.convertOpenAIToGeminiResponse;
      try destruct (OpenAISDK.choices resp) as [| c l];
      intros out [= <-]; eauto. }
  split_and!.
  - destruct a; simpl in *;
      unfold OpenAIAdapter.convertOpenAIToGeminiResponse,
        AnthropicAdapter.convertAnthropicToGeminiResponse,
        MetaLlamaAdapter.convertOpenAIToGeminiResponse;
      try destruct (OpenAISDK.choices resp) as [| c l]; by split.
  - exact Hshape.
  - intros Hn out c Ho Hc. destruct (Hshape out Ho) as [t Ht].
    rewrite Ht in Hc. apply list_elem_of_singleton in Hc as ->. simpl.
    rewrite Hn. by destruct a.
Qed.

Lemma response_shape_witness :
  ∃ t, candidates
         {| candidates :=
              [ {| cand_content := modelContent "hi";
                   finishReason := Some MAX_TOKENS; index := 0 |} ];
            usageMetadata :=
              Some {| promptTokenCount := 1; candidatesTokenCount := 2;
                      totalTokenCount := 3 |} |} =
       [ {| cand_content := modelContent t;
            finishReason :=
              Some (mapFinishReason Anthropic
                      (suppliedReason Anthropic
                         {| AnthropicSDK.content :=
                              [AnthropicSDK.TextBlockResp "hi"];
                            AnthropicSDK.stop_reason := Some "max_tokens";
                            AnthropicSDK.usage :=
                              {| AnthropicSDK.input_tokens := 1;
                                 AnthropicSDK.output_tokens := 2 |} |}));
            index := 0 |} ].
Proof.
  apply (proj1 (proj2 (response_shape Anthropic
           {| AnthropicSDK.content := [AnthropicSDK.TextBlockResp "hi"];
              AnthropicSDK.stop_reason := Some "max_tokens";
              AnthropicSDK.usage :=
                {| AnthropicSDK.input_tokens := 1;
                   AnthropicSDK.output_tokens := 2 |} |}))).
  reflexivity.
Defined.





Lemma openai_stream_cons (c : OpenAISDK.ChatCompletionChunk)
    (l : list OpenAISDK.ChatCompletionChunk) :
  OpenAIAdapter.generateContentStream (c :: l) =
  OpenAIAdapter.generateContentStream [c] ++ OpenAIAdapter.generateContentStream l.
Proof.
  unfold OpenAIAdapter.generateContentStream. simpl. by rewrite app_nil_r.
Qed.

Lemma meta_stream_cons (c : OpenAISDK.ChatCompletionChunk)
    (l : list OpenAISDK.ChatCompletionChunk) :
  MetaLlamaAdapter.generateContentStream (c :: l) =
  MetaLlamaAdapter.generateContentStream [c] ++ MetaLlamaAdapter.generateContentStream l.
Proof.
  unfold MetaLlamaAdapter.generateContentStream. simpl. by rewrite app_nil_r.
Qed.

(** X25. In every adapter each stream event is translated on its own:
    the responses to a stream in two pieces are the responses to the first
    piece followed by those to the second, so a prefix of the stream gives
    a prefix of the responses. The OpenAI and Meta Llama adapters yield
    one response for each chunk whose first choice has a delta, also when
    that delta has no content (the response then has the empty text), and
    none for a chunk without choices or without delta; the Anthropic
    adapter yields one response for each text delta. *)
Theorem stream_events_independent (a : Adapter) (s1 s2 : list (StreamEvent a))
    (stream : list OpenAISDK.ChatCompletionChunk)
    (events : list AnthropicSDK.RawMessageStreamEvent)
    (fr : option string) (rest : list OpenAISDK.ChunkChoice) :
  generateContentStream a (s1 ++ s2) =
    generateContentStream a s1 ++ generateContentStream a s2 ∧
  length (OpenAIAdapter.generateContentStream stream) =
    length (List.filter OpenAISDK.has_delta stream) ∧
  length (MetaLlamaAdapter.generateContentStream stream) =
    length (List.filter OpenAISDK.has_delta stream) ∧
  length (AnthropicAdapter.generateContentStream events) =
    length (List.filter AnthropicSDK.is_text_delta events) ∧
  OpenAIAdapter.generateContentStream
    [ OpenAISDK.mkChunk
        (OpenAISDK.mkChunkChoice (Some (OpenAISDK.mkChunkDelta None)) fr :: rest) ] =
    [ partial ""
        (if JS.truthy_opt fr
         then Some (OpenAIAdapter.mapFinishReason fr) else None) ] ∧
  OpenAIAdapter.generateContentStream
    [ OpenAISDK.mkChunk (OpenAISDK.mkChunkChoice None fr :: rest) ] = [] ∧
  OpenAIAdapter.generateContentStream [ OpenAISDK.mkChunk [] ] = [].
Proof.
  split_and!; try reflexivity.
  - destruct a; simpl;
      unfold OpenAIAdapter.generateContentStream,
        AnthropicAdapter.generateContentStream,
        MetaLlamaAdapter.generateContentStream; apply flat_map_app.
  - induction stream as [| c l IH]; [done |].
    rewrite openai_stream_cons, length_app, IH. simpl.
    unfold OpenAIAdapter.generateContentStream,
      OpenAIAdapter.convertOpenAIStreamChunkToGemini, OpenAISDK.has_delta.
    simpl. destruct (OpenAISDK.chunk_choices c) as [| ch chs]; [done |].
    by destruct (OpenAISDK.delta ch).
  - induction stream as [| c l IH]; [done |].
    rewrite meta_stream_cons, length_app, IH. simpl.
    unfold MetaLlamaAdapter.generateContentStream,
      MetaLlamaAdapter.convertOpenAIStreamChunkToGemini, OpenAISDK.has_delta.
    simpl. destruct (OpenAISDK.chunk_choices c) as [| ch chs]; [done |].
    by destruct (OpenAISDK.delta ch).
  - unfold AnthropicAdapter.generateContentStream.
    induction events as [| e l IH]; [done |]. simpl. rewrite length_app, IH.
    by destruct (AnthropicSDK.is_text_delta e).
Qed.

(* ===================================================================== *)
(** ** Further properties: tools, provider calls and embeddings           *)
(* ===================================================================== *)

(** X26. Tool conversion, in the OpenAI and in the Anthropic adapter
    alike, throws exactly when some tool has no [functionDeclaration];
    otherwise it returns one provider tool per tool, in the same order,
    with name, description and parameter schema unchanged. *)
Theorem tools_conversion (ts : ToolListUnion) :
  (OpenAIAdapter.convertGeminiToolsToOpenAI ts = None ↔
   Exists (fun t => functionDeclaration t = None) (toolsArray ts)) ∧
  (AnthropicAdapter.convertGeminiToolsToAnthropic ts = None ↔
   Exists (fun t => functionDeclaration t = None) (toolsArray ts)) ∧
  (∀ out, OpenAIAdapter.convertGeminiToolsToOpenAI ts = Some out →
     Forall2 (fun t o => ∃ fd, functionDeclaration t = Some fd ∧
                OpenAISDK.fn_name o = fd_name fd ∧
                OpenAISDK.fn_description o = fd_description fd ∧
                OpenAISDK.fn_parameters o = fd_parameters fd)
       (toolsArray ts) out) ∧
  (∀ out, AnthropicAdapter.convertGeminiToolsToAnthropic ts = Some out →
     Forall2 (fun t o => ∃ fd, functionDeclaration t = Some fd ∧
                AnthropicSDK.tool_name o = fd_name fd ∧
                AnthropicSDK.tool_description o = fd_description fd ∧
                AnthropicSDK.input_schema o = fd_parameters fd)
       (toolsArray ts) out).
Proof.
  unfold OpenAIAdapter.convertGeminiToolsToOpenAI,
    AnthropicAdapter.convertGeminiToolsToAnthropic.
  split_and!.
  - rewrite mapM_None.
    split; intros H; (eapply Exists_impl; [exact H |]); intros t;
      unfold OpenAIAdapter.toolToOpenAI; by destruct (functionDeclaration t).
  - rewrite mapM_None.
    split; intros H; (eapply Exists_impl; [exact H |]); intros t;
      unfold AnthropicAdapter.toolToAnthropic; by destruct (functionDeclaration t).
  - intros out H. apply mapM_Some in H.
    eapply Forall2_impl; [exact H |]. intros t o Ht.
    unfold OpenAIAdapter.toolToOpenAI in Ht.
    destruct (functionDeclaration t) as [fd |]; [| discriminate].
    injection Ht as <-. by exists fd.
  - intros out H. apply mapM_Some in H.
    eapply Forall2_impl; [exact H |]. intros t o Ht.
    unfold AnthropicAdapter.toolToAnthropic in Ht.
    destruct (functionDeclaration t) as [fd |]; [| discriminate].
    injection Ht as <-. by exists fd.
Qed.

Lemma tools_conversion_witness :
  Forall2 (fun t o => ∃ fd, functionDeclaration t = Some fd ∧
             OpenAISDK.fn_name o = fd_name fd ∧
             OpenAISDK.fn_description o = fd_description fd ∧
             OpenAISDK.fn_parameters o = fd_parameters fd)
    (toolsArray
       (OneTool {| functionDeclaration :=
                     Some {| fd_name := Some "ls"; fd_description := None;
                             fd_parameters := None |} |}))
    [ {| OpenAISDK.fn_name := Some "ls"; OpenAISDK.fn_description := None;
         OpenAISDK.fn_parameters := None |} ].
Proof.
  apply (proj1 (proj2 (proj2 (tools_conversion
           (OneTool {| functionDeclaration :=
                         Some {| fd_name := Some "ls"; fd_description := None;
                                 fd_parameters := None |} |}))))).
  reflexivity.
Defined.

Lemma startsWith_append (p s : string) : JS.startsWith (p +:+ s) p = true.
Proof. apply startsWith_spec. by exists s. Qed.

(** X27. [generateContent] of every adapter makes at most one call to the
    SDK client. Whatever goes wrong, building the call, the call itself or
    translating its response, is thrown as one error whose message starts
    with the adapter's provider prefix; when building the call throws (a
    tool without function declaration) the client is not called. A result
    is the translation of the response the client gave to the call, whose
    messages are the translation of the request. *)
Theorem generateContent_outcomes (typeErrorText : string → string)
    (request : GenerateContentParameters) (settings : GenerationSettings) :
  (∀ create,
     match OpenAIAdapter.generateContent typeErrorText create request settings with
     | (calls, inl msg) =>
         JS.startsWith msg (errorPrefix OpenAI) = true ∧ length calls ≤ 1 ∧
         (OpenAIAdapter.generateContentParams request settings = None → calls = [])
     | (calls, inr out) =>
         ∃ p resp, calls = [p] ∧ create p = inr resp ∧
           OpenAIAdapter.generateContentParams request settings = Some p ∧
           OpenAISDK.cp_messages p = convertMessages OpenAI request ∧
           convertResponse OpenAI resp = Some out
     end) ∧
  (∀ create,
     match AnthropicAdapter.generateContent typeErrorText create request settings with
     | (calls, inl msg) =>
         JS.startsWith msg (errorPrefix Anthropic) = true ∧ length calls ≤ 1 ∧
         (AnthropicAdapter.generateContentParams request settings = None → calls = [])
     | (calls, inr out) =>
         ∃ p resp, calls = [p] ∧ create p = inr resp ∧
           AnthropicAdapter.generateContentParams request settings = Some p ∧
           AnthropicSDK.mp_messages p = convertMessages Anthropic request ∧
           convertResponse Anthropic resp = Some out
     end) ∧
  (∀ create,
     match MetaLlamaAdapter.generateContent typeErrorText create request settings with
     | (calls, inl msg) =>
         JS.startsWith msg (errorPrefix MetaLlama) = true ∧
         calls = [MetaLlamaAdapter.generateContentParams request settings]
     | (calls, inr out) =>
         ∃ resp, calls = [MetaLlamaAdapter.generateContentParams request settings] ∧
           create (MetaLlamaAdapter.generateContentParams request settings) = inr resp ∧
           convertResponse MetaLlama resp = Some out
     end).
Proof.
  split_and!; intros create.
  - unfold OpenAIAdapter.generateContent.
    destruct (OpenAIAdapter.generateContentParams request settings) as [p |] eqn:Hp.
    + assert (OpenAISDK.cp_messages p = convertMessages OpenAI request) as Hm.
      { unfold OpenAIAdapter.generateContentParams in Hp.
        destruct (tools settings) as [ts |];
          [destruct (OpenAIAdapter.convertGeminiToolsToOpenAI ts) |];
          by simplify_eq. }
      destruct (create p) as [e | resp] eqn:Hc.
      * split_and!; [apply startsWith_append | simpl; lia | done].
      * destruct (OpenAIAdapter.convertOpenAIToGeminiResponse resp) eqn:Hr.
        -- by exists p, resp.
        -- split_and!; [apply startsWith_append | simpl; lia | done].
    + split_and!; [apply startsWith_append | simpl; lia | done].
  - unfold AnthropicAdapter.generateContent.
    destruct (AnthropicAdapter.generateContentParams request settings) as [p |] eqn:Hp.
    + assert (AnthropicSDK.mp_messages p = convertMessages Anthropic request) as Hm.
      { unfold AnthropicAdapter.generateContentParams in Hp.
        destruct (tools settings) as [ts |];
          [destruct (AnthropicAdapter.convertGeminiToolsToAnthropic ts) |];
          by simplify_eq. }
      destruct (create p) as [e | resp] eqn:Hc.
      * split_and!; [apply startsWith_append | simpl; lia | done].
      * simpl. by exists p, resp.
    + split_and!; [apply startsWith_append | simpl; lia | done].
  - unfold MetaLlamaAdapter.generateContent.
    destruct (create (MetaLlamaAdapter.generateContentParams request settings))
      as [e | resp] eqn:Hc.
    + split; [apply startsWith_append | done].
    + destruct (MetaLlamaAdapter.convertOpenAIToGeminiResponse resp) eqn:Hr.
      * by exists resp.
      * split; [apply startsWith_append | done].
Qed.

Lemma or_else_nonempty (x : option string) (d : string) :
  d ≠ "" → JS.or_else x d ≠ "".
Proof.
  intros Hd. unfold JS.or_else. destruct x as [s |]; [| done].
  destruct (JS.truthy s) eqn:E; [by apply truthy_nonempty | done].
Qed.




(** X29. The streaming call and the one-shot call of an adapter are built
    alike: for the same request the streaming call is the one-shot call
    with the stream flag set, and building one throws exactly when
    building the other does. *)
Theorem streaming_call_same_parameters (request : GenerateContentParameters)
    (settings : GenerationSettings) :
  OpenAIAdapter.generateContentStreamParams request settings =
    openaiStreaming <$> OpenAIAdapter.generateContentParams request settings ∧
  AnthropicAdapter.generateContentStreamParams request settings =
    anthropicStreaming <$> AnthropicAdapter.generateContentParams request settings ∧
  MetaLlamaAdapter.generateContentStreamParams request settings =
    openaiStreaming (MetaLlamaAdapter.generateContentParams request settings).
Proof.
  split_and!.
  - unfold OpenAIAdapter.generateContentStreamParams,
      OpenAIAdapter.generateContentParams.
    destruct (tools settings) as [ts |];
      [by destruct (OpenAIAdapter.convertGeminiToolsToOpenAI ts) | done].
  - unfold AnthropicAdapter.generateContentStreamParams,
      AnthropicAdapter.generateContentParams.
    destruct (tools settings) as [ts |];
      [by destruct (AnthropicAdapter.convertGeminiToolsToAnthropic ts) | done].
  - done.
Qed.

(** X30. [embedContent]: the Anthropic and the Meta Llama adapter throw
    for every request, with a message about embeddings, without calling
    their client. The OpenAI adapter makes exactly one call, whose input
    is the text extracted from the request's contents and whose model is
    never empty; it returns exactly one embedding, the first vector of
    the response, and throws an error that starts with its embeddings
    prefix when the call fails or the response holds no vector. *)
Theorem embedContent_outcomes (typeErrorText : string → string)
    (createEmbedding : OpenAISDK.EmbeddingCreateParams →
                       string + OpenAISDK.CreateEmbeddingResponse)
    (request : EmbedContentParameters) :
  (∃ msg, AnthropicAdapter.embedContent request = ([], inl msg) ∧
          JS.includes msg "embeddings" = true) ∧
  (∃ msg, MetaLlamaAdapter.embedContent request = ([], inl msg) ∧
          JS.includes msg "embeddings" = true) ∧
  (∃ p, (OpenAIAdapter.embedContent typeErrorText createEmbedding request).1 = [p] ∧
        OpenAISDK.em_input p = Shared.extractTextFromContents (ec_contents request) ∧
        OpenAISDK.em_model p ≠ "" ∧
        match (OpenAIAdapter.embedContent typeErrorText createEmbedding request).2 with
        | inl msg => JS.startsWith msg "OpenAI Embeddings API error: " = true ∧
                     (∀ resp, createEmbedding p = inr resp → OpenAISDK.em_data resp = [])
        | inr out => ∃ resp v vs, createEmbedding p = inr resp ∧
                       OpenAISDK.em_data resp = v :: vs ∧ embeddings out = [v]
        end).
Proof.
  split_and!.
  - eexists. split; [reflexivity |]. vm_compute. reflexivity.
  - eexists. split; [reflexivity |]. vm_compute. reflexivity.
  - unfold OpenAIAdapter.embedContent.
    set (p := {| OpenAISDK.em_model := _; OpenAISDK.em_input := _ |}).
    exists p.
    assert (OpenAISDK.em_model p ≠ "") as Hm by (by apply or_else_nonempty).
    destruct (createEmbedding p) as [e | resp] eqn:Hc; simpl.
    + split_and!; [done | done | done | apply startsWith_append | done].
    + destruct (OpenAISDK.em_data resp) as [| v vs] eqn:Hd; simpl.
      * split_and!; [done | done | done | apply startsWith_append |].
        intros resp' [= <-]. done.
      * split_and!; [done | done | done |]. by exists resp, v, vs.
Qed.
